(** * SecureClaw: the authorization plugin and the policy decision procedure

    A shallow embedding of the SecureClaw plugin
    ([src/plugins/secureclaw/resource-extractor.ts], [plugin.ts],
    [config.ts]) together with the decision procedure of the policy
    engine the plugin talks to.

    Conventions of the embedding.
    - A JavaScript string is a sequence of code units; the embedding keeps
      the code units below 256 (Latin-1), one [ascii] each, so [length],
      [slice], [includes], [split] and [toLowerCase] act on a [string]
      exactly as the built-ins act on such a JavaScript string.
    - A [Record<string, unknown>] is a finite map from property names to
      JavaScript values.
    - A hook is a computation in a state-and-exception monad over the
      closure variables of [createSecureClawPlugin] and the logger; the
      logger's methods return normally, and the hooks run one at a time.
    - [guardOrThrow] belongs to the predicate-claw SDK: a provider is given
      by the decision events it reports to the plugin's telemetry and audit
      handlers while it handles a request, and by the way its promise
      settles. *)

From stdpp Require Import gmap strings list pretty.
From Stdlib Require Import Ascii String ZArith Lia.

Open Scope string_scope.

(** ** JavaScript strings *)

Module Js.

(** [String.prototype.toLowerCase] on one code unit below 256: the
    letters A-Z and the Latin-1 capitals U+00C0-U+00DE (U+00D7, the
    multiplication sign, is not a letter) move up by 32. *)
Definition lower_unit (c : ascii) : ascii :=
  let n := N_of_ascii c in
  if ((65 <=? n) && (n <=? 90))%N
     || ((192 <=? n) && (n <=? 222) && negb (n =? 215))%N
  then ascii_of_N (n + 32)
  else c.

Fixpoint toLowerCase (s : string) : string :=
  match s with
  | EmptyString => EmptyString
  | String c s' => String (lower_unit c) (toLowerCase s')
  end.

(** [s.includes(pat)]: [pat] occurs in [s] at some position. *)
Fixpoint includes (pat s : string) : bool :=
  String.prefix pat s
  || match s with
     | EmptyString => false
     | String _ s' => includes pat s'
     end.

(** [s.startsWith(pat)]. *)
Definition startsWith (pat s : string) : bool := String.prefix pat s.

(** [s.slice(0, n)] for a non-negative [n]. *)
Definition slice0 (n : nat) (s : string) : string := String.substring 0 n s.

(** The code units matched by [\s] that lie below 256: TAB, LF, VT, FF,
    CR, SPACE and NO-BREAK SPACE. *)
Definition is_space (c : ascii) : bool :=
  let n := N_of_ascii c in
  ((9 <=? n) && (n <=? 13) || (n =? 32) || (n =? 160))%N.

(** [s.split(/\s+/)]: the pieces between maximal runs of white space.
    [cur] is the piece being read (from the last separator on) and
    [in_sep] tells that the previous code unit belonged to a separator.
    A string that starts (ends) with white space has an empty first
    (last) piece, and the result is never empty. *)
Fixpoint split_go (in_sep : bool) (cur : string) (s : string) : list string :=
  match s with
  | EmptyString => [cur]
  | String c s' =>
      if is_space c then
        if in_sep then split_go true cur s'
        else cur :: split_go true EmptyString s'
      else split_go false (cur +:+ String c EmptyString) s'
  end.

Definition split_spaces (s : string) : list string :=
  split_go false EmptyString s.

(** [a || b] on strings: the empty string is the only falsy string. *)
Definition or_else (a : string) (b : string) : string :=
  match a with
  | EmptyString => b
  | _ => a
  end.

(** The values a tool parameter can hold. *)
#[local] Set Warnings "-register-all".
Inductive Value : Type :=
| Undefined
| Null
| Boolean (b : bool)
| Number (n : Z)
| Str (s : string)
| Array (items : list Value)
| Object (fields : list (string * Value)).

End Js.

(** ** resource-extractor.ts *)

Abbreviation Params := (gmap string Js.Value).

(** [typeof params[key] === "string" ? params[key] : <absent>]. *)
Definition string_param (params : Params) (key : string) : option string :=
  match params !! key with
  | Some (Js.Str s) => Some s
  | _ => None
  end.

(** What [actionMap[toolName]] evaluates to: a category of the table, or,
    for a name that every object inherits from [Object.prototype], that
    inherited member (which is not nullish, so [??] keeps it). *)
Inductive Action : Type :=
| ActionName (name : string)
| ActionInherited (member : string).

Definition actionMap : gmap string string :=
  list_to_map
    [ ("Read", "fs.read");
      ("Write", "fs.write");
      ("Edit", "fs.write");
      ("Glob", "fs.list");
      ("MultiEdit", "fs.write");
      ("Bash", "shell.exec");
      ("Task", "agent.spawn");
      ("WebFetch", "http.request");
      ("WebSearch", "http.request");
      ("computer-use:screenshot", "browser.screenshot");
      ("computer-use:click", "browser.interact");
      ("computer-use:type", "browser.interact");
      ("computer-use:scroll", "browser.interact");
      ("computer-use:navigate", "browser.navigate");
      ("NotebookRead", "notebook.read");
      ("NotebookEdit", "notebook.write");
      ("mcp_tool", "mcp.call") ].

Definition object_prototype_members : list string :=
  [ "constructor"; "__proto__"; "hasOwnProperty"; "isPrototypeOf";
    "propertyIsEnumerable"; "toLocaleString"; "toString"; "valueOf";
    "__defineGetter__"; "__defineSetter__"; "__lookupGetter__";
    "__lookupSetter__" ].

Definition extractAction (toolName : string) : Action :=
  match actionMap !! toolName with
  | Some category => ActionName category
  | None =>
      if existsb (String.eqb toolName) object_prototype_members
      then ActionInherited toolName
      else ActionName ("tool." +:+ Js.toLowerCase toolName)
  end.

Definition pathKeys : list string :=
  [ "file_path"; "filePath"; "path"; "file"; "filename" ].

(** The [for (const key of pathKeys)] loop with its early return. *)
Fixpoint first_string_param (params : Params) (keys : list string) : option string :=
  match keys with
  | [] => None
  | key :: rest =>
      match string_param params key with
      | Some s => Some s
      | None => first_string_param params rest
      end
  end.

Definition extractFilePath (params : Params) : string :=
  default "file:unknown" (first_string_param params pathKeys).

Definition maxLen : nat := 100.

Definition extractBashCommand (params : Params) : string :=
  match string_param params "command" with
  | None => "bash:unknown"
  | Some command =>
      if Nat.leb (String.length command) maxLen then command
      else
        let parts := Js.split_spaces command in
        let cmdName := default "cmd" (parts !! 0%nat) in
        let firstArg := default "" (parts !! 1%nat) in
        Js.slice0 maxLen (cmdName +:+ " " +:+ firstArg +:+ "...")
  end.

Definition extractMcpResource (params : Params) : string :=
  let server :=
    match string_param params "server" with
    | Some s => s
    | None => default "unknown" (string_param params "mcp_server")
    end in
  let tool :=
    match string_param params "tool" with
    | Some s => s
    | None => default "unknown" (string_param params "tool_name")
    end in
  "mcp:" +:+ server +:+ "/" +:+ tool.

Definition is_one_of (toolName : string) (names : list string) : bool :=
  existsb (String.eqb toolName) names.

(** The [switch (toolName)] of [extractResource], case by case. *)
Definition extractResource (toolName : string) (params : Params) : string :=
  if is_one_of toolName ["Read"; "Write"; "Edit"; "MultiEdit"] then
    extractFilePath params
  else if is_one_of toolName ["Glob"] then
    default "*" (string_param params "pattern")
  else if is_one_of toolName ["Bash"] then
    extractBashCommand params
  else if is_one_of toolName ["WebFetch"; "WebSearch"] then
    match string_param params "url" with
    | Some url => url
    | None =>
        match string_param params "query" with
        | Some query => "search:" +:+ query
        | None => "unknown"
        end
    end
  else if is_one_of toolName ["computer-use:navigate"] then
    default "browser:current" (string_param params "url")
  else if is_one_of toolName
            ["computer-use:screenshot"; "computer-use:click";
             "computer-use:type"; "computer-use:scroll"] then
    "browser:current"
  else if is_one_of toolName ["Task"] then
    match string_param params "prompt" with
    | Some prompt => "task:" +:+ Js.slice0 50 prompt
    | None => "task:unknown"
    end
  else if is_one_of toolName ["NotebookRead"; "NotebookEdit"] then
    default "notebook:unknown" (string_param params "notebook_path")
  else if is_one_of toolName ["mcp_tool"] then
    extractMcpResource params
  else
    Js.or_else (extractFilePath params)
      (Js.or_else (default "" (string_param params "path"))
         (Js.or_else (default "" (string_param params "target"))
            (toolName +:+ ":params"))).

Definition sensitivePatterns : list string :=
  [ "/.ssh/"; "/etc/passwd"; "/etc/shadow"; "id_rsa"; "id_ed25519";
    "credentials"; ".env"; "secret"; "token"; "password"; "api_key";
    "apikey"; "private_key"; "privatekey"; ".pem"; ".key"; "aws_";
    "gcp_"; "azure_" ].

Definition isSensitiveResource (resource : string) : bool :=
  let lowered := Js.toLowerCase resource in
  existsb (fun pattern => Js.includes pattern lowered) sensitivePatterns.

Definition redacted : string := "[REDACTED]".

Definition redactResource (resource : string) : string :=
  if isSensitiveResource resource then redacted else resource.

(** ** config.ts *)

Record SecureClawConfig : Type := {
  principal : string;
  policyFile : string;
  sidecarUrl : string;
  failClosed : bool;
  enablePostVerification : bool;
  verbose : bool;
  sessionId : option string;
  tenantId : option string;
  userId : option string
}.

(** [Partial<SecureClawConfig>]: every field may be left undefined. *)
Record PartialConfig : Type := {
  p_principal : option string;
  p_policyFile : option string;
  p_sidecarUrl : option string;
  p_failClosed : option bool;
  p_enablePostVerification : option bool;
  p_verbose : option bool;
  p_sessionId : option string;
  p_tenantId : option string;
  p_userId : option string
}.

Definition noOptions : PartialConfig :=
  {| p_principal := None; p_policyFile := None; p_sidecarUrl := None;
     p_failClosed := None; p_enablePostVerification := None;
     p_verbose := None; p_sessionId := None; p_tenantId := None;
     p_userId := None |}.

Definition defaultConfig : SecureClawConfig :=
  {| principal := "agent:secureclaw";
     policyFile := "./policies/default.yaml";
     sidecarUrl := "http://127.0.0.1:9120";
     failClosed := true;
     enablePostVerification := true;
     verbose := false;
     sessionId := None; tenantId := None; userId := None |}.

(** [process.env.X === "true"] and [process.env.X !== "false"]. *)
Definition env_is (env : gmap string string) (name value : string) : bool :=
  match env !! name with
  | Some v => String.eqb v value
  | None => false
  end.

Definition loadConfigFromEnv (env : gmap string string) : PartialConfig :=
  {| p_principal := env !! "SECURECLAW_PRINCIPAL";
     p_policyFile := env !! "SECURECLAW_POLICY";
     p_sidecarUrl := env !! "PREDICATE_SIDECAR_URL";
     p_failClosed := Some (negb (env_is env "SECURECLAW_FAIL_OPEN" "true"));
     p_enablePostVerification := Some (negb (env_is env "SECURECLAW_VERIFY" "false"));
     p_verbose := Some (env_is env "SECURECLAW_VERBOSE" "true");
     p_sessionId := None;
     p_tenantId := env !! "SECURECLAW_TENANT_ID";
     p_userId := env !! "SECURECLAW_USER_ID" |}.

(** An override that is undefined is filtered out and the base value kept. *)
Definition override_opt {A} (base : option A) (over : option A) : option A :=
  match over with
  | Some v => Some v
  | None => base
  end.

Definition mergeConfig (base : SecureClawConfig) (overrides : PartialConfig)
  : SecureClawConfig :=
  {| principal := default (principal base) (p_principal overrides);
     policyFile := default (policyFile base) (p_policyFile overrides);
     sidecarUrl := default (sidecarUrl base) (p_sidecarUrl overrides);
     failClosed := default (failClosed base) (p_failClosed overrides);
     enablePostVerification :=
       default (enablePostVerification base) (p_enablePostVerification overrides);
     verbose := default (verbose base) (p_verbose overrides);
     sessionId := override_opt (sessionId base) (p_sessionId overrides);
     tenantId := override_opt (tenantId base) (p_tenantId overrides);
     userId := override_opt (userId base) (p_userId overrides) |}.

(** The configuration [createSecureClawPlugin(options)] works with:
    defaults, then the environment, then the explicit options. *)
Definition pluginConfig (env : gmap string string) (options : PartialConfig)
  : SecureClawConfig :=
  mergeConfig (mergeConfig defaultConfig (loadConfigFromEnv env)) options.

(** ** The predicate-claw interface (predicate-claw.d.ts) *)

Record GuardContext : Type := {
  session_id : option string;
  tenant_id : option string;
  user_id : option string;
  agent_id : option string;
  source : string
}.

Record GuardRequest : Type := {
  action : Action;
  resource : string;
  args : Params;
  context : GuardContext
}.

(** What a [catch] clause can receive from [guardOrThrow]: one of the two
    error classes of the SDK, another [Error] with its message, or a value
    that is no [Error], given by what [String(value)] does with it: it
    yields a string, or it throws a [TypeError] itself ([None]) when the
    value has no string form, as for [Object.create(null)]. *)
Inductive Thrown : Type :=
| ActionDeniedError (message : string)
| SidecarUnavailableError (message : string)
| OtherError (message : string)
| NonError (as_string : option string).

(** How the promise of [guardOrThrow] settles: resolved with a mandate id
    (or [null] when the SDK failed open), or rejected. *)
Inductive Settled : Type :=
| Resolved (mandate : option string)
| Rejected (error : Thrown).

Record DecisionTelemetryEvent : Type := {
  ev_action : string;
  ev_resource : string;
  ev_outcome : string;
  ev_reason : option string;
  ev_timestamp : option Z;
  ev_durationMs : option Z;
  ev_mandateId : option string
}.

(** A [GuardedProvider] as the plugin sees it. [guard request] is the way
    the promise of [guardOrThrow(request)] settles; [reports guard request]
    are the decision events the provider hands to [telemetry.onDecision]
    and [auditExporter.exportDecision] before that. *)
Record Guard : Type := {
  settles :> GuardRequest -> Settled;
  reports : GuardRequest -> list DecisionTelemetryEvent
}.

(** ** plugin.ts: the closure state and the hook monad *)

Record Metrics : Type := { count : nat; blocked : nat }.

Inductive Level : Type := Info | Warn | Error.

(** The closure variables of [createSecureClawPlugin] and what was written
    to [api.logger]. [toolCallMetrics] is a [Map]: it keeps insertion
    order, so it is an association list with one entry per key. *)
Record PluginState : Type := {
  currentSessionId : option string;
  sessionStartTime : option Z;
  toolCallMetrics : list (string * Metrics);
  logged : list (Level * string)
}.

Definition initialState : PluginState :=
  {| currentSessionId := None; sessionStartTime := None;
     toolCallMetrics := []; logged := [] |}.

Fixpoint map_get (key : string) (m : list (string * Metrics)) : option Metrics :=
  match m with
  | [] => None
  | (k, v) :: rest => if String.eqb k key then Some v else map_get key rest
  end.

(** [Map.prototype.set]: an existing key keeps its place. *)
Fixpoint map_set (key : string) (v : Metrics) (m : list (string * Metrics))
  : list (string * Metrics) :=
  match m with
  | [] => [(key, v)]
  | (k, w) :: rest =>
      if String.eqb k key then (k, v) :: rest else (k, w) :: map_set key v rest
  end.

Inductive Outcome (A : Type) : Type :=
| Returned (a : A)
| Threw (error : Thrown).
Arguments Returned {A} a.
Arguments Threw {A} error.

Definition Hook (A : Type) : Type := PluginState -> Outcome A * PluginState.

#[export] Instance hook_ret : MRet Hook :=
  fun A a st => (Returned a, st).

#[export] Instance hook_bind : MBind Hook :=
  fun A B f c st =>
    match c st with
    | (Returned a, st') => f a st'
    | (Threw e, st') => (Threw e, st')
    end.

Definition raise {A} (e : Thrown) : Hook A := fun st => (Threw e, st).

(** [try { body } catch (error) { handler }]. *)
Definition try_catch {A} (body : Hook A) (handler : Thrown -> Hook A) : Hook A :=
  fun st =>
    match body st with
    | (Returned a, st') => (Returned a, st')
    | (Threw e, st') => handler e st'
    end.

Definition read {A} (f : PluginState -> A) : Hook A :=
  fun st => (Returned (f st), st).

Definition update (f : PluginState -> PluginState) : Hook unit :=
  fun st => (Returned tt, f st).

Definition log (level : Level) (msg : string) : Hook unit :=
  update (fun st =>
    {| currentSessionId := currentSessionId st;
       sessionStartTime := sessionStartTime st;
       toolCallMetrics := toolCallMetrics st;
       logged := logged st ++ [(level, msg)] |}).

Definition when (b : bool) (c : Hook unit) : Hook unit :=
  if b then c else mret tt.

Definition set_metrics (toolName : string) (metrics : Metrics) : Hook unit :=
  update (fun st =>
    {| currentSessionId := currentSessionId st;
       sessionStartTime := sessionStartTime st;
       toolCallMetrics := map_set toolName metrics (toolCallMetrics st);
       logged := logged st |}).

(** An [Action] inside a template literal. *)
Definition show_action (a : Action) : string :=
  match a with
  | ActionName name => name
  | ActionInherited member =>
      if String.eqb member "__proto__" then "[object Object]"
      else if String.eqb member "constructor" then "function Object() { [native code] }"
      else "function " +:+ member +:+ "() { [native code] }"
  end.

(** ** plugin.ts: the hooks registered by [activate] *)

Record SessionStartEvent : Type := { start_sessionId : string }.

Record SessionEndEvent : Type := { end_sessionId : string }.

Record BeforeToolCallEvent : Type := {
  toolName : string;
  params : Params
}.

(** [durationMs] is a number; the hook only prints it, so it is given by
    the text a template literal prints for it. *)
Record AfterToolCallEvent : Type := {
  after_toolName : string;
  after_params : Params;
  result : Js.Value;
  error : option string;
  durationMs : option string
}.

Record ToolContext : Type := {
  agentId : option string;
  sessionKey : option string
}.

(** The object literal a blocking [before_tool_call] returns. *)
Record BlockResult : Type := {
  block : bool;
  blockReason : string
}.

Definition unavailableReason : string :=
  "[SecureClaw] Authorization service unavailable (fail-closed mode)".

Definition blockedPrefix : string := "[SecureClaw] Action blocked: ".

(** The line [telemetry.onDecision] writes for [event]. *)
Definition decision_line (event : DecisionTelemetryEvent) : string :=
  let status :=
    if String.eqb (ev_outcome event) "allow" then "ALLOWED"
    else if String.eqb (ev_outcome event) "deny" then "BLOCKED"
    else "ERROR" in
  "[SecureClaw] " +:+ status +:+ ": " +:+ ev_action event +:+ " on "
  +:+ ev_resource event +:+ " ("
  +:+ default "no reason" (ev_reason event) +:+ ")".

(** [telemetry.onDecision]. *)
Definition onDecision (config : SecureClawConfig) (event : DecisionTelemetryEvent)
  : Hook unit :=
  when (verbose config) (log Info (decision_line event)).

(** [auditExporter.exportDecision]: the body holds comments only. *)
Definition exportDecision (_event : DecisionTelemetryEvent) : Hook unit :=
  mret tt.

(** The provider hands each decision event to the two handlers. *)
Fixpoint report_decisions (config : SecureClawConfig)
    (events : list DecisionTelemetryEvent) : Hook unit :=
  match events with
  | [] => mret tt
  | event :: rest =>
      onDecision config event;;
      exportDecision event;;
      report_decisions config rest
  end.

(** [await guardedProvider.guardOrThrow(request)]: the provider reports its
    decision events, then the promise settles. *)
Definition await_guard (config : SecureClawConfig) (guard : Guard)
    (request : GuardRequest) : Hook (option string) :=
  report_decisions config (reports guard request);;
  match guard request with
  | Resolved mandate => mret mandate
  | Rejected error => raise error
  end.

(** Hook [session_start]; [now] is what [Date.now()] returns. *)
Definition session_start (config : SecureClawConfig) (now : Z)
    (event : SessionStartEvent) : Hook unit :=
  update (fun st =>
    {| currentSessionId := Some (start_sessionId event);
       sessionStartTime := Some now;
       toolCallMetrics := [];
       logged := logged st |});;
  when (verbose config)
    (log Info ("[SecureClaw] Session started: " +:+ start_sessionId event)).

(** The [for (const [tool, metrics] of toolCallMetrics)] loop of [session_end]. *)
Fixpoint log_metrics (entries : list (string * Metrics)) : Hook unit :=
  match entries with
  | [] => mret tt
  | (tool, metrics) :: rest =>
      log Info ("  " +:+ tool +:+ ": " +:+ pretty (count metrics) +:+ " calls, "
                +:+ pretty (blocked metrics) +:+ " blocked");;
      log_metrics rest
  end.

(** Hook [session_end]. A start time of 0 is falsy, like an unset one. *)
Definition session_end (config : SecureClawConfig) (now : Z)
    (event : SessionEndEvent) : Hook unit :=
  started ← read sessionStartTime;
  let duration :=
    match started with
    | Some t => if Z.eqb t 0 then 0%Z else (now - t)%Z
    | None => 0%Z
    end in
  when (verbose config)
    (log Info ("[SecureClaw] Session ended: " +:+ end_sessionId event);;
     log Info ("[SecureClaw] Duration: " +:+ pretty duration +:+ "ms");;
     log Info "[SecureClaw] Tool metrics:";;
     entries ← read toolCallMetrics;
     log_metrics entries);;
  update (fun st =>
    {| currentSessionId := None;
       sessionStartTime := None;
       toolCallMetrics := [];
       logged := logged st |}).

(** [metrics.count++] and [metrics.blocked++]. *)
Definition count_up (m : Metrics) : Metrics :=
  {| count := S (count m); blocked := blocked m |}.

Definition blocked_up (m : Metrics) : Metrics :=
  {| count := count m; blocked := S (blocked m) |}.

(** [error instanceof Error ? error.message : String(error)] in the last
    part of the [catch] clause: for a value that is no [Error] and has no
    string form the conversion throws, and nothing around it catches. *)
Definition errorMessageOf (error : Thrown) : Hook string :=
  match error with
  | ActionDeniedError message
  | SidecarUnavailableError message
  | OtherError message => mret message
  | NonError (Some text) => mret text
  | NonError None => raise (OtherError "Cannot convert object to primitive value")
  end.

(** What the [catch (error)] clause of [before_tool_call] does; [metrics]
    is the object the [try] part already counted the call on. The message
    of an error is a string, so [error.message ?? "denied_by_policy"] is
    the message. *)
Definition on_guard_error (config : SecureClawConfig) (toolName : string)
    (action : Action) (metrics : Metrics) (error : Thrown)
  : Hook (option BlockResult) :=
  match error with
  | ActionDeniedError message =>
      set_metrics toolName (blocked_up metrics);;
      let reason := message in
      when (verbose config)
        (log Warn ("[SecureClaw] BLOCKED: " +:+ show_action action +:+ " - " +:+ reason));;
      mret (Some {| block := true; blockReason := blockedPrefix +:+ reason |})
  | SidecarUnavailableError message =>
      set_metrics toolName (blocked_up metrics);;
      log Error ("[SecureClaw] Sidecar error (fail-closed): " +:+ message);;
      mret (Some {| block := true; blockReason := unavailableReason |})
  | OtherError _
  | NonError _ =>
      errorMessage ← errorMessageOf error;
      if failClosed config then
        set_metrics toolName (blocked_up metrics);;
        log Error ("[SecureClaw] Unknown error (fail-closed): " +:+ errorMessage);;
        mret (Some {| block := true; blockReason := unavailableReason |})
      else
        log Warn ("[SecureClaw] Unknown error (fail-open): " +:+ errorMessage);;
        mret None
  end.

(** The [guardRequest] object built inside the [try]; [current] is the
    value of [currentSessionId] at that point. *)
Definition guardRequestFor (config : SecureClawConfig)
    (event : BeforeToolCallEvent) (ctx : ToolContext) (current : option string)
  : GuardRequest :=
  {| action := extractAction (toolName event);
     resource := extractResource (toolName event) (params event);
     args := params event;
     context :=
       {| session_id :=
            match current with
            | Some id => Some id
            | None => sessionKey ctx
            end;
          tenant_id := tenantId config;
          user_id := userId config;
          agent_id := agentId ctx;
          source := "secureclaw" |} |}.

(** Hook [before_tool_call], one run of it with no other hook running
    while it waits for the provider: [None] is [undefined], the call goes
    on. *)
Definition before_tool_call (config : SecureClawConfig) (guard : Guard)
    (event : BeforeToolCallEvent) (ctx : ToolContext)
  : Hook (option BlockResult) :=
  let action := extractAction (toolName event) in
  let resource := extractResource (toolName event) (params event) in
  found ← read (fun st => map_get (toolName event) (toolCallMetrics st));
  let metrics := count_up (default {| count := 0; blocked := 0 |} found) in
  set_metrics (toolName event) metrics;;
  when (verbose config)
    (log Info ("[SecureClaw] Pre-auth: " +:+ show_action action +:+ " on "
               +:+ redactResource resource));;
  try_catch
    (current ← read currentSessionId;
     let guardRequest := guardRequestFor config event ctx current in
     _ ← await_guard config guard guardRequest;
     mret None)
    (on_guard_error config (toolName event) action metrics).

(** [verifyBrowserState] and [verifyFileWrite]: placeholders. *)
Definition verifyBrowserState (toolName : string) (params : Params)
    (result : Js.Value) (verbose : bool) : Hook unit :=
  when verbose
    (log Info ("[SecureClaw] Browser verification: " +:+ toolName +:+ " (placeholder)")).

Definition verifyFileWrite (toolName : string) (params : Params)
    (result : Js.Value) (verbose : bool) : Hook unit :=
  when verbose
    (log Info ("[SecureClaw] File write verification: " +:+ toolName +:+ " (placeholder)")).

(** [action.startsWith("browser.")]: an inherited member is no string and
    has no such method, the call throws a [TypeError]. *)
Definition action_startsWith (pat : string) (a : Action) : Hook bool :=
  match a with
  | ActionName name => mret (Js.startsWith pat name)
  | ActionInherited _ => raise (OtherError "action.startsWith is not a function")
  end.

Definition action_is (name : string) (a : Action) : bool :=
  match a with
  | ActionName n => String.eqb n name
  | ActionInherited _ => false
  end.

(** Truthiness of an optional string: set and not empty. *)
Definition truthy (o : option string) : bool :=
  match o with
  | Some s => negb (String.eqb s "")
  | None => false
  end.

(** Hook [after_tool_call]. *)
Definition after_tool_call (config : SecureClawConfig) (event : AfterToolCallEvent)
  : Hook unit :=
  if negb (enablePostVerification config) then mret tt
  else
    let action := extractAction (after_toolName event) in
    let resource := extractResource (after_toolName event) (after_params event) in
    when (verbose config)
      (log Info ("[SecureClaw] Post-verify: " +:+ show_action action +:+ " on "
                 +:+ redactResource resource +:+ " ("
                 +:+ default "0" (durationMs event) +:+ "ms, error: "
                 +:+ (if truthy (error event) then "yes" else "no") +:+ ")"));;
    is_browser ← action_startsWith "browser." action;
    when is_browser
      (verifyBrowserState (after_toolName event) (after_params event)
         (result event) (verbose config));;
    when (action_is "fs.write" action && negb (truthy (error event)))
      (verifyFileWrite (after_toolName event) (after_params event)
         (result event) (verbose config)).

(** ** The policy engine behind the sidecar

    The plugin only calls the engine (through [guardOrThrow]); the
    engine's own code is not part of these sources, so its decision
    procedure is taken from the specification (sections 3, 4.1 and 4.3)
    and from the evaluation order documented in policies/README.md. *)

Module Engine.

(** Modelled from the spec: the data model of section 3 ([Rule],
    [PolicyDocument], [AuthorizationRequest], [AuthorizationDecision]);
    pattern lists are ordered, label sets are sets. *)
Inductive Effect : Type := Allow | Deny.

Record Rule : Type := {
  name : string;
  effect : Effect;
  principals : list string;
  actions : list string;
  resources : list string;
  required_labels : gset string;
  max_delegation_depth : option Z
}.

Record PolicyDocument : Type := {
  version : string;
  rules : list Rule
}.

Record AuthorizationRequest : Type := {
  principal : string;
  action : string;
  resource : string;
  labels : gset string;
  intent_hash : option string
}.

Record AuthorizationDecision : Type := {
  allow : bool;
  reason : string;
  matched_rule : option string;
  mandate_id : option string
}.

(** Modelled from the spec: the Pattern Matcher of section 4.1, whose code
    is missing, in the reading that agrees with every concrete case of
    section 8 and of the README table: a star stands for any run of
    characters, empty or not, and the match is anchored at both ends. *)
Fixpoint glob (pattern candidate : string) {struct pattern} : bool :=
  match pattern with
  | EmptyString =>
      match candidate with
      | EmptyString => true
      | String _ _ => false
      end
  | String c pattern' =>
      if Ascii.eqb c "*" then
        (fix star (rest : string) : bool :=
           glob pattern' rest
           || match rest with
              | EmptyString => false
              | String _ rest' => star rest'
              end) candidate
      else
        match candidate with
        | EmptyString => false
        | String d candidate' => Ascii.eqb c d && glob pattern' candidate'
        end
  end.

Section Evaluator.

(** The matcher the evaluator consults and the mandate id it issues when
    it allows; the decision procedure is stated over any such pair. *)
Variable matches : string -> string -> bool.
Variable fresh_mandate : string.

(** Modelled from the spec: "matches any pattern in" a pattern list. *)
Definition matches_any (patterns : list string) (candidate : string) : bool :=
  existsb (fun pattern => matches pattern candidate) patterns.

(** Modelled from the spec: the triple match of steps 1 and 2, principal,
    action and resource each against its pattern list. *)
Definition structurally_matches (rule : Rule) (request : AuthorizationRequest) : bool :=
  matches_any (principals rule) (principal request)
  && matches_any (actions rule) (action request)
  && matches_any (resources rule) (resource request).

(** Modelled from the spec: "for each rule with effect = Deny" and "for
    each rule with effect = Allow". *)
Definition is_deny (rule : Rule) : bool :=
  match effect rule with Deny => true | Allow => false end.

Definition is_allow (rule : Rule) : bool :=
  match effect rule with Allow => true | Deny => false end.

(** Modelled from the spec: every string of [required_labels] is among the
    labels of the request. *)
Definition labels_present (rule : Rule) (request : AuthorizationRequest) : bool :=
  bool_decide (required_labels rule ⊆ labels request).

(** Modelled from the spec: the Decision Evaluator of section 4.3, whose
    code is missing: the deny phase over the whole document, then the
    allow phase with the label check, then the default deny, each phase
    in document order and stopping at its first match. *)
Definition evaluate (document : PolicyDocument) (request : AuthorizationRequest)
  : AuthorizationDecision :=
  match find (fun rule => is_deny rule && structurally_matches rule request)
             (rules document) with
  | Some rule =>
      {| allow := false;
         reason := "denied_by_policy:" +:+ name rule;
         matched_rule := Some (name rule);
         mandate_id := None |}
  | None =>
      match find (fun rule => is_allow rule && structurally_matches rule request
                              && labels_present rule request)
                 (rules document) with
      | Some rule =>
          {| allow := true;
             reason := "allowed_by_policy:" +:+ name rule;
             matched_rule := Some (name rule);
             mandate_id := Some fresh_mandate |}
      | None =>
          {| allow := false;
             reason := "no_matching_allow_rule";
             matched_rule := None;
             mandate_id := None |}
      end
  end.

End Evaluator.

End Engine.

(** ** Values used by the examples below *)

Definition deny_aws : Engine.Rule :=
  {| Engine.name := "deny-aws"; Engine.effect := Engine.Deny;
     Engine.principals := ["*"]; Engine.actions := ["fs.read"; "fs.write"];
     Engine.resources := ["*/.aws/*"]; Engine.required_labels := ∅;
     Engine.max_delegation_depth := None |}.

Definition allow_read : Engine.Rule :=
  {| Engine.name := "allow-read"; Engine.effect := Engine.Allow;
     Engine.principals := ["*"]; Engine.actions := ["fs.read"];
     Engine.resources := ["*"]; Engine.required_labels := ∅;
     Engine.max_delegation_depth := None |}.

Definition request_of (p a r : string) : Engine.AuthorizationRequest :=
  {| Engine.principal := p; Engine.action := a; Engine.resource := r;
     Engine.labels := ∅; Engine.intent_hash := None |}.

(** A broad allow rule placed before a narrow deny rule. *)
Definition allow_then_deny : Engine.PolicyDocument :=
  {| Engine.version := "1.0"; Engine.rules := [allow_read; deny_aws] |}.

Definition no_rules : Engine.PolicyDocument :=
  {| Engine.version := "1.0"; Engine.rules := [] |}.

Definition aws_request : Engine.AuthorizationRequest :=
  request_of "agent:x" "fs.read" "/home/u/.aws/credentials".

Definition failOpenConfig : SecureClawConfig :=
  mergeConfig defaultConfig
    {| p_principal := None; p_policyFile := None; p_sidecarUrl := None;
       p_failClosed := Some false; p_enablePostVerification := None;
       p_verbose := Some true; p_sessionId := None; p_tenantId := None;
       p_userId := None |}.

Definition bashEvent : BeforeToolCallEvent :=
  {| toolName := "Bash"; params := {[ "command" := Js.Str "rm -rf /" ]} |}.

Definition testContext : ToolContext :=
  {| agentId := Some "test-agent"; sessionKey := Some "test-session" |}.

(** A provider whose every call rejects with [error], and one that also
    reports a decision event first. *)
Definition rejecting (error : Thrown) : Guard :=
  {| settles := fun _ => Rejected error; reports := fun _ => [] |}.

Definition denyEvent (request : GuardRequest) : DecisionTelemetryEvent :=
  {| ev_action := "fs.read"; ev_resource := resource request;
     ev_outcome := "deny"; ev_reason := Some "sensitive_resource_blocked";
     ev_timestamp := None; ev_durationMs := None; ev_mandateId := None |}.

Definition reportingDeny : Guard :=
  {| settles := fun _ => Rejected (ActionDeniedError "sensitive_resource_blocked");
     reports := fun request => [denyEvent request] |}.

(** The [TypeError] of [String(value)] on a value with no string form. *)
Definition noStringForm : Thrown :=
  OtherError "Cannot convert object to primitive value".

(** How the [catch] clause of [before_tool_call] ends for [error], its
    effects on the metrics and the log left aside. *)
Definition verdict (config : SecureClawConfig) (error : Thrown)
  : Outcome (option BlockResult) :=
  match error with
  | ActionDeniedError message =>
      Returned (Some {| block := true; blockReason := blockedPrefix +:+ message |})
  | SidecarUnavailableError _ =>
      Returned (Some {| block := true; blockReason := unavailableReason |})
  | NonError None => Threw noStringForm
  | OtherError _ | NonError (Some _) =>
      if failClosed config
      then Returned (Some {| block := true; blockReason := unavailableReason |})
      else Returned None
  end.

(** A computation that returns normally and whose only effect, if any, is
    to append lines to the log. *)
Definition only_logs (c : Hook unit) : Prop :=
  forall st : PluginState,
    (c st).1 = Returned tt
    /\ currentSessionId (c st).2 = currentSessionId st
    /\ sessionStartTime (c st).2 = sessionStartTime st
    /\ toolCallMetrics (c st).2 = toolCallMetrics st
    /\ exists lines, logged (c st).2 = (logged st ++ lines)%list.

(** Reading a command from the left: [leading_word s] is the run of
    non-space code units that [s] starts with (empty when [s] starts with
    white space), [after_word s] what follows that run, [skip_spaces s]
    drops the white space [s] starts with. *)
Fixpoint leading_word (s : string) : string :=
  match s with
  | EmptyString => EmptyString
  | String c s' => if Js.is_space c then EmptyString else String c (leading_word s')
  end.

Fixpoint after_word (s : string) : string :=
  match s with
  | EmptyString => EmptyString
  | String c s' => if Js.is_space c then s else after_word s'
  end.

Fixpoint skip_spaces (s : string) : string :=
  match s with
  | EmptyString => EmptyString
  | String c s' => if Js.is_space c then skip_spaces s' else s
  end.

(** The first two pieces of [command.split(/\s+/)], stated without the
    split: the first piece is empty when the command starts with white
    space. *)
Definition first_piece (command : string) : string := leading_word command.

Definition second_piece (command : string) : string :=
  leading_word (skip_spaces (after_word command)).

(** The words of a command as a reader counts them: the first word is the
    first run of non-space code units, wherever it starts, the second word
    the next such run (each empty when there is none). *)
Definition first_word (command : string) : string :=
  leading_word (skip_spaces command).

Definition second_word (command : string) : string :=
  leading_word (skip_spaces (after_word (skip_spaces command))).

(** Whether the command starts with white space. *)
Definition leading_space (command : string) : bool :=
  match command with
  | EmptyString => false
  | String c _ => Js.is_space c
  end.

(** A computation that, whether it returns or throws, leaves the closure
    variables as they were (it may write to the log). *)
Definition keeps_closure {A} (c : Hook A) : Prop :=
  forall st : PluginState,
    currentSessionId (c st).2 = currentSessionId st
    /\ sessionStartTime (c st).2 = sessionStartTime st
    /\ toolCallMetrics (c st).2 = toolCallMetrics st.

(** ** Definitions for the further properties *)

(** The entries of the [actionMap] object literal, in source order. *)
Definition actionTable : list (string * string) :=
  [ ("Read", "fs.read");
    ("Write", "fs.write");
    ("Edit", "fs.write");
    ("Glob", "fs.list");
    ("MultiEdit", "fs.write");
    ("Bash", "shell.exec");
    ("Task", "agent.spawn");
    ("WebFetch", "http.request");
    ("WebSearch", "http.request");
    ("computer-use:screenshot", "browser.screenshot");
    ("computer-use:click", "browser.interact");
    ("computer-use:type", "browser.interact");
    ("computer-use:scroll", "browser.interact");
    ("computer-use:navigate", "browser.navigate");
    ("NotebookRead", "notebook.read");
    ("NotebookEdit", "notebook.write");
    ("mcp_tool", "mcp.call") ].

Definition targetOnly : Params := {[ "target" := Js.Str "db://prod/users" ]}.

Definition pathAndFile : Params :=
  {[ "path" := Js.Str "/app/config.json" ]} ∪ {[ "file" := Js.Str "other.txt" ]}
  ∪ {[ "file_path" := Js.Number 7 ]}.

Definition mcpCall : Params :=
  {[ "server" := Js.Str "github" ]} ∪ {[ "tool" := Js.Str "issues/create" ]}.

Definition mcpCallWithAlias : Params :=
  mcpCall ∪ {[ "mcp_server" := Js.Str "gitlab" ]} ∪ {[ "tool_name" := Js.Str "list" ]}.

Definition leadingSpaceCommand : string :=
  " rm -rf /var/lib/app/cache /var/lib/app/tmp /var/lib/app/logs /var/lib/app/sessions /var/lib/app/uploads".

Definition leadingSpaceRemove : Params :=
  {[ "command" := Js.Str leadingSpaceCommand ]}.

Definition longRemove : Params :=
  {[ "command" := Js.Str "rm -rf /var/lib/app/cache /var/lib/app/tmp /var/lib/app/logs /var/lib/app/sessions /var/lib/app/uploads" ]}.

Definition longRemoveRoot : Params :=
  {[ "command" := Js.Str "rm   -rf / --no-preserve-root && echo the quick brown fox jumps over the lazy dog again and again and again" ]}.

(** The counters of every tool are consistent: no more blocked calls than
    calls. *)
Definition metrics_ok (st : PluginState) : Prop :=
  forall (tool : string) (m : Metrics),
    map_get tool (toolCallMetrics st) = Some m -> blocked m <= count m.

(** The metrics entry of [tool] before a call, as [before_tool_call] reads
    it: [toolCallMetrics.get(toolName) ?? { count: 0, blocked: 0 }]. *)
Definition metrics_of (tool : string) (st : PluginState) : Metrics :=
  default {| count := 0; blocked := 0 |} (map_get tool (toolCallMetrics st)).

(** Whether a hook result blocks the tool call. *)
Definition blocks (o : Outcome (option BlockResult)) : bool :=
  match o with
  | Returned (Some res) => block res
  | _ => false
  end.

Definition readEvent : BeforeToolCallEvent :=
  {| toolName := "Read"; params := {[ "file_path" := Js.Str "/home/user/.ssh/id_rsa" ]} |}.

Definition quietConfig : SecureClawConfig :=
  mergeConfig defaultConfig
    {| p_principal := None; p_policyFile := None; p_sidecarUrl := None;
       p_failClosed := Some false; p_enablePostVerification := None;
       p_verbose := Some false; p_sessionId := None; p_tenantId := None;
       p_userId := None |}.

(** A provider whose every call resolves with [mandate]. *)
Definition resolving (mandate : option string) : Guard :=
  {| settles := fun _ => Resolved mandate; reports := fun _ => [] |}.

Definition toStringCall : AfterToolCallEvent :=
  {| after_toolName := "toString"; after_params := ∅; result := Js.Undefined;
     error := None; durationMs := Some "12" |}.

Definition writeCall : AfterToolCallEvent :=
  {| after_toolName := "Write";
     after_params := {[ "file_path" := Js.Str "/src/new.ts" ]};
     result := Js.Str "ok"; error := None; durationMs := Some "1.5" |}.

Definition startEvent : SessionStartEvent := {| start_sessionId := "integration-test-123" |}.

Definition endEvent : SessionEndEvent := {| end_sessionId := "integration-test-123" |}.

(** [st] with [lines] appended to the log. *)
Definition add_lines (lines : list (Level * string)) (st : PluginState) : PluginState :=
  {| currentSessionId := currentSessionId st;
     sessionStartTime := sessionStartTime st;
     toolCallMetrics := toolCallMetrics st;
     logged := (logged st ++ lines)%list |}.

(** A computation that returns normally, its only effect being [n] more
    lines in the log. *)
Definition logs_lines {A} (n : nat) (c : Hook A) : Prop :=
  forall st : PluginState,
    exists (a : A) (lines : list (Level * string)),
      c st = (Returned a, add_lines lines st) /\ List.length lines = n.

(** ** env.ts and auto-register.ts *)

(** [isSecureClawEnabled]: [process.env.SECURECLAW_DISABLED !== "true"]. *)
Definition isSecureClawEnabled (env : gmap string string) : bool :=
  negb (env_is env "SECURECLAW_DISABLED" "true").

(** The plugin definition [createSecureClawPlugin] returns: its four
    constant fields and the configuration its [activate] closes over. *)
Record PluginDefinition : Type := {
  plugin_id : string;
  plugin_name : string;
  plugin_description : string;
  plugin_version : string;
  plugin_config : SecureClawConfig
}.

Definition createSecureClawPlugin (env : gmap string string) (options : PartialConfig)
  : PluginDefinition :=
  {| plugin_id := "secureclaw";
     plugin_name := "SecureClaw";
     plugin_description :=
       "Zero-trust security middleware with pre-authorization and post-verification";
     plugin_version := "1.0.0";
     plugin_config := pluginConfig env options |}.

(** [autoRegisterSecureClaw]: the plugin or [null], and the lines written
    with [console.log]. *)
Definition autoRegisterSecureClaw (env : gmap string string)
  : option PluginDefinition * list string :=
  if negb (isSecureClawEnabled env) then
    (None, ["[SecureClaw] Disabled via SECURECLAW_DISABLED=true"])
  else
    let plugin := createSecureClawPlugin env noOptions in
    (Some plugin,
     ["[SecureClaw] Security middleware initialized";
      "[SecureClaw] All tool calls will be authorized before execution"]).

Definition getSecureClawPlugin (env : gmap string string) : PluginDefinition :=
  createSecureClawPlugin env noOptions.

Definition upperCaseEnv : gmap string string :=
  {[ "SECURECLAW_FAIL_OPEN" := "TRUE" ]} ∪ {[ "SECURECLAW_DISABLED" := "1" ]}
  ∪ {[ "SECURECLAW_TENANT_ID" := "acme" ]}.

Definition unrelatedEnv : gmap string string :=
  {[ "HOME" := "/home/user" ]} ∪ {[ "SECURECLAW_VERBOSE" := "yes" ]}.

Definition tenantOptions : PartialConfig :=
  {| p_principal := Some "agent:custom"; p_policyFile := None; p_sidecarUrl := None;
     p_failClosed := None; p_enablePostVerification := None;
     p_verbose := None; p_sessionId := None; p_tenantId := None;
     p_userId := Some "alice" |}.

(** * Properties *)

(** ** The test suites, replayed on the embedding *)

Example extractAction_tests :
  extractAction "Read" = ActionName "fs.read"
  /\ extractAction "MultiEdit" = ActionName "fs.write"
  /\ extractAction "computer-use:navigate" = ActionName "browser.navigate"
  /\ extractAction "CustomTool" = ActionName "tool.customtool"
  /\ extractAction "toString" = ActionInherited "toString".
Proof. vm_compute. repeat split. Qed.

Example extractResource_tests :
  extractResource "Read" {[ "file_path" := Js.Str "/src/index.ts" ]} = "/src/index.ts"
  /\ extractResource "Read" ∅ = "file:unknown"
  /\ extractResource "Glob" ∅ = "*"
  /\ extractResource "Bash" {[ "command" := Js.Str "npm test" ]} = "npm test"
  /\ extractResource "Bash" ∅ = "bash:unknown"
  /\ extractResource "WebSearch" {[ "query" := Js.Str "typescript tutorial" ]}
     = "search:typescript tutorial"
  /\ extractResource "computer-use:click" {[ "x" := Js.Number 100 ]} = "browser:current"
  /\ extractResource "Custom" {[ "file" := Js.Str "" ]} = "Custom:params".
Proof. vm_compute. repeat split. Qed.

Example isSensitiveResource_tests :
  isSensitiveResource "/home/user/.ssh/id_rsa" = true
  /\ isSensitiveResource "~/.ssh/config" = true
  /\ isSensitiveResource "/home/user/.aws/credentials" = true
  /\ isSensitiveResource "AWS_SECRET_KEY" = true
  /\ isSensitiveResource "server.pem" = true
  /\ isSensitiveResource "/src/index.ts" = false
  /\ isSensitiveResource "package.json" = false
  /\ redactResource ".env.local" = "[REDACTED]"
  /\ redactResource "/src/index.ts" = "/src/index.ts".
Proof. vm_compute. repeat split. Qed.

Example split_spaces_tests :
  Js.split_spaces "npm  run build" = ["npm"; "run"; "build"]
  /\ Js.split_spaces " ls -la" = [""; "ls"; "-la"]
  /\ Js.split_spaces "ls " = ["ls"; ""]
  /\ Js.split_spaces "" = [""].
Proof. vm_compute. repeat split. Qed.

(** The concrete cases of the specification's section 8 for the matcher. *)
Example glob_cases :
  Engine.glob "fs.*" "fs.read" = true
  /\ Engine.glob "fs.*" "http.request" = false
  /\ Engine.glob "/home/*/projects/**" "/home/alice/projects/a/b/c.txt" = true
  /\ Engine.glob "/home/*/projects/**" "/home/alice/other/c.txt" = false
  /\ Engine.glob "*" "" = true
  /\ Engine.glob "agent:*" "agent:bot-1" = true
  /\ Engine.glob "agent:*" "user:bot-1" = false
  /\ Engine.glob "" "x" = false.
Proof. vm_compute. repeat split. Qed.

(** The two end-to-end scenarios of section 8. *)
Example end_to_end_deny :
  Engine.evaluate Engine.glob "m-1"
    {| Engine.version := "1.0"; Engine.rules := [deny_aws] |}
    (request_of "agent:x" "fs.read" "/home/u/.aws/credentials")
  = {| Engine.allow := false; Engine.reason := "denied_by_policy:deny-aws";
       Engine.matched_rule := Some "deny-aws"; Engine.mandate_id := None |}.
Proof. vm_compute. reflexivity. Qed.

Example end_to_end_allow :
  Engine.evaluate Engine.glob "m-1"
    {| Engine.version := "1.0"; Engine.rules := [allow_read] |}
    (request_of "agent:x" "fs.read" "/src/index.ts")
  = {| Engine.allow := true; Engine.reason := "allowed_by_policy:allow-read";
       Engine.matched_rule := Some "allow-read"; Engine.mandate_id := Some "m-1" |}.
Proof. vm_compute. reflexivity. Qed.

(** ** The authorization gate: [before_tool_call] *)

Lemma add_lines_nil st : add_lines [] st = st.
Proof. destruct st. unfold add_lines. simpl. now rewrite app_nil_r. Qed.

Lemma add_lines_app l1 l2 st : add_lines l2 (add_lines l1 st) = add_lines (l1 ++ l2) st.
Proof. unfold add_lines. simpl. now rewrite app_assoc. Qed.

Lemma log_run level msg st : log level msg st = (Returned tt, add_lines [(level, msg)] st).
Proof. reflexivity. Qed.

(** The handlers only write to the log, one line per event when verbose. *)
Lemma report_decisions_run config events st :
  report_decisions config events st
  = (Returned tt,
     add_lines (if verbose config
                then map (fun event => (Info, decision_line event)) events
                else []) st).
Proof.
  revert st. induction events as [| event rest IH]; intros st.
  - destruct (verbose config); simpl; now rewrite add_lines_nil.
  - simpl report_decisions.
    unfold mbind, hook_bind, onDecision, exportDecision, when, mret, hook_ret.
    destruct (verbose config) eqn:Hverb.
    + rewrite log_run. lazy beta iota. rewrite IH, ?Hverb, add_lines_app. reflexivity.
    + rewrite IH, ?Hverb. reflexivity.
Qed.

(** How the [catch] clause ends. *)
Lemma on_guard_error_outcome config tool act metrics error st :
  (on_guard_error config tool act metrics error st).1 = verdict config error.
Proof.
  destruct error as [m | m | m | [m |]]; unfold on_guard_error, verdict.
  - unfold mbind, hook_bind, set_metrics, update, when.
    destruct (verbose config); reflexivity.
  - reflexivity.
  - unfold mbind, hook_bind, errorMessageOf, mret, hook_ret.
    destruct (failClosed config); reflexivity.
  - unfold mbind, hook_bind, errorMessageOf, mret, hook_ret.
    destruct (failClosed config); reflexivity.
  - reflexivity.
Qed.

(** The [try] part of [before_tool_call] with its [catch] clause. *)
Lemma guarded_part_run config guard event ctx
    (handler : Thrown -> Hook (option BlockResult)) st :
  try_catch
    (current ← read currentSessionId;
     let guardRequest := guardRequestFor config event ctx current in
     _ ← await_guard config guard guardRequest;
     mret None)
    handler st
  = match guard (guardRequestFor config event ctx (currentSessionId st)) with
    | Resolved _ =>
        (Returned None,
         add_lines (if verbose config
                    then map (fun event => (Info, decision_line event))
                           (reports guard
                              (guardRequestFor config event ctx (currentSessionId st)))
                    else []) st)
    | Rejected error =>
        handler error
          (add_lines (if verbose config
                      then map (fun event => (Info, decision_line event))
                             (reports guard
                                (guardRequestFor config event ctx (currentSessionId st)))
                      else []) st)
    end.
Proof.
  unfold try_catch, await_guard, mbind, hook_bind, read. lazy beta iota zeta.
  rewrite report_decisions_run.
  destruct (guard _); reflexivity.
Qed.

(** One run of [before_tool_call], split at the [await]: [st1] is the state
    when the promise of the provider settles. *)
Lemma before_tool_call_run config guard event ctx st :
  exists st1 : PluginState,
    currentSessionId st1 = currentSessionId st
    /\ sessionStartTime st1 = sessionStartTime st
    /\ toolCallMetrics st1
       = map_set (toolName event) (count_up (metrics_of (toolName event) st))
           (toolCallMetrics st)
    /\ logged st1
       = (logged st
          ++ (if verbose config
              then [(Info, "[SecureClaw] Pre-auth: "
                           +:+ show_action (extractAction (toolName event)) +:+ " on "
                           +:+ redactResource
                                 (extractResource (toolName event) (params event)))]
              else [])
          ++ (if verbose config
              then map (fun event => (Info, decision_line event))
                     (reports guard
                        (guardRequestFor config event ctx (currentSessionId st)))
              else []))%list
    /\ before_tool_call config guard event ctx st
       = match guard (guardRequestFor config event ctx (currentSessionId st)) with
         | Resolved _ => (Returned None, st1)
         | Rejected error =>
             on_guard_error config (toolName event) (extractAction (toolName event))
               (count_up (metrics_of (toolName event) st)) error st1
         end.
Proof.
  pose (st0 := {| currentSessionId := currentSessionId st;
                  sessionStartTime := sessionStartTime st;
                  toolCallMetrics :=
                    map_set (toolName event) (count_up (metrics_of (toolName event) st))
                      (toolCallMetrics st);
                  logged := logged st |}).
  unfold before_tool_call.
  unfold mbind at 1, hook_bind at 1, read at 1. lazy beta iota zeta.
  unfold mbind at 1, hook_bind at 1, set_metrics, update. lazy beta iota zeta.
  unfold mbind at 1, hook_bind at 1.
  fold (metrics_of (toolName event) st). fold st0.
  destruct (verbose config) eqn:Hverb; unfold when.
  - rewrite log_run. lazy beta iota. rewrite guarded_part_run.
    match goal with
    | |- context [add_lines [?line] st0] => set (pre := line)
    end.
    change (currentSessionId (add_lines [pre] st0)) with (currentSessionId st).
    rewrite Hverb, add_lines_app.
    eexists. split; [| split; [| split; [| split; [| reflexivity]]]];
      reflexivity.
  - unfold mret at 1, hook_ret at 1. lazy beta iota. rewrite guarded_part_run.
    change (currentSessionId st0) with (currentSessionId st).
    rewrite Hverb, add_lines_nil.
    exists st0. split; [reflexivity |]. split; [reflexivity |]. split; [reflexivity |].
    split; [subst st0; cbn [logged]; now rewrite !app_nil_r | reflexivity].
Qed.

(** The hook resolves with [undefined] when the provider resolves, and ends
    as the [catch] clause ends when it rejects. *)
Lemma before_tool_call_outcome config guard event ctx st :
  (before_tool_call config guard event ctx st).1
  = match guard (guardRequestFor config event ctx (currentSessionId st)) with
    | Resolved _ => Returned None
    | Rejected error => verdict config error
    end.
Proof.
  destruct (before_tool_call_run config guard event ctx st)
    as (st1 & _ & _ & _ & _ & ->).
  destruct (guard _) as [mandate | error]; [reflexivity |].
  apply on_guard_error_outcome.
Qed.

Lemma prefix_app (p s : string) : String.prefix p (p +:+ s) = true.
Proof.
  induction p as [| c p IH]; simpl.
  - destruct s; reflexivity.
  - destruct (ascii_dec c c) as [_ | Hne]; [exact IH | congruence].
Qed.

Lemma prefix_refl (p : string) : String.prefix p p = true.
Proof.
  induction p as [| c p IH]; simpl; [reflexivity |].
  destruct (ascii_dec c c) as [_ | Hne]; [exact IH | congruence].
Qed.

Lemma includes_refl (pat : string) : Js.includes pat pat = true.
Proof.
  destruct pat; simpl; [reflexivity |].
  apply orb_true_iff. left.
  destruct (ascii_dec a a) as [_ | Hne]; [apply prefix_refl | congruence].
Qed.

Lemma includes_app_r (pat pre : string) : Js.includes pat (pre +:+ pat) = true.
Proof.
  induction pre as [| c pre IH]; simpl.
  - apply includes_refl.
  - rewrite IH. apply orb_true_r.
Qed.

(** C1. The fail-closed gate has a hole: when [guardOrThrow] rejects with
    a value that is no [Error] and has no string form, [String(error)]
    throws inside the [catch] clause before [failClosed] is read, and the
    hook rejects with that [TypeError] instead of returning an object with
    [block = true]. *)
Theorem unprintable_rejection_escapes_fail_closed
    (config : SecureClawConfig) (guard : Guard) (event : BeforeToolCallEvent)
    (ctx : ToolContext) (st : PluginState) :
  failClosed config = true ->
  guard (guardRequestFor config event ctx (currentSessionId st))
  = Rejected (NonError None) ->
  (before_tool_call config guard event ctx st).1 = Threw noStringForm
  /\ forall res : BlockResult,
       (before_tool_call config guard event ctx st).1 <> Returned (Some res).
Proof.
  intros _ Hrej. rewrite before_tool_call_outcome, Hrej.
  split; [reflexivity | intros res; discriminate].
Qed.

Lemma unprintable_rejection_witness :
  failClosed defaultConfig = true
  /\ (before_tool_call defaultConfig (rejecting (NonError None))
        bashEvent testContext initialState).1 = Threw noStringForm.
Proof.
  split; [reflexivity |].
  exact (proj1 (unprintable_rejection_escapes_fail_closed defaultConfig
                  (rejecting (NonError None)) bashEvent testContext initialState
                  eq_refl eq_refl)).
Defined.

(** C3. A policy denial ([ActionDeniedError] with reason [r]) is reported
    as [block = true] with a [blockReason] that contains [r], whatever
    [failClosed] is, and never with the service-unavailable reason; any
    other rejection that blocks is reported with the service-unavailable
    reason, which never has the shape of a policy-denial reason. *)
Theorem policy_deny_and_unavailable_are_distinct
    (config : SecureClawConfig) (guard : Guard) (event : BeforeToolCallEvent)
    (ctx : ToolContext) (st : PluginState) (error : Thrown) :
  guard (guardRequestFor config event ctx (currentSessionId st)) = Rejected error ->
  (forall r : string, error = ActionDeniedError r ->
     exists res : BlockResult,
       (before_tool_call config guard event ctx st).1 = Returned (Some res)
       /\ block res = true
       /\ blockReason res = blockedPrefix +:+ r
       /\ Js.includes r (blockReason res) = true
       /\ blockReason res <> unavailableReason)
  /\ ((forall r : string, error <> ActionDeniedError r) ->
      forall res : BlockResult,
        (before_tool_call config guard event ctx st).1 = Returned (Some res) ->
        blockReason res = unavailableReason
        /\ Js.startsWith blockedPrefix (blockReason res) = false).
Proof.
  intros Hrej. rewrite before_tool_call_outcome, Hrej. split.
  - intros r ->. eexists. split; [reflexivity |].
    split; [reflexivity |]. split; [reflexivity |]. split.
    + exact (includes_app_r r blockedPrefix).
    + discriminate.
  - intros Hother res Hres.
    destruct error as [m | m | m | [m |]]; unfold verdict in Hres.
    + exfalso. exact (Hother m eq_refl).
    + injection Hres as <-. split; reflexivity.
    + destruct (failClosed config); [| discriminate].
      injection Hres as <-. split; reflexivity.
    + destruct (failClosed config); [| discriminate].
      injection Hres as <-. split; reflexivity.
    + discriminate.
Qed.

Lemma policy_deny_witness :
  exists res : BlockResult,
    (before_tool_call failOpenConfig (rejecting (ActionDeniedError "policy_violation"))
       bashEvent testContext initialState).1 = Returned (Some res)
    /\ block res = true
    /\ blockReason res = blockedPrefix +:+ "policy_violation"
    /\ Js.includes "policy_violation" (blockReason res) = true
    /\ blockReason res <> unavailableReason.
Proof.
  exact (proj1 (policy_deny_and_unavailable_are_distinct failOpenConfig
                  (rejecting (ActionDeniedError "policy_violation"))
                  bashEvent testContext initialState
                  (ActionDeniedError "policy_violation") eq_refl)
           "policy_violation" eq_refl).
Defined.

(** C8. A [SidecarUnavailableError] blocks whatever [failClosed] is, in
    particular when it is [false]; the hook lets the call go on after a
    rejection only for an error that is neither an [ActionDeniedError] nor
    a [SidecarUnavailableError] (and then only when failing open). *)
Theorem sidecar_unavailable_always_blocks
    (config : SecureClawConfig) (guard : Guard) (event : BeforeToolCallEvent)
    (ctx : ToolContext) (st : PluginState) (error : Thrown) :
  guard (guardRequestFor config event ctx (currentSessionId st)) = Rejected error ->
  (forall m : string, error = SidecarUnavailableError m ->
     exists res : BlockResult,
       (before_tool_call config guard event ctx st).1 = Returned (Some res)
       /\ block res = true)
  /\ ((before_tool_call config guard event ctx st).1 = Returned None ->
      (forall m : string, error <> ActionDeniedError m)
      /\ (forall m : string, error <> SidecarUnavailableError m)
      /\ failClosed config = false).
Proof.
  intros Hrej. rewrite before_tool_call_outcome, Hrej. split.
  - intros m ->. eexists. split; reflexivity.
  - intros Hnone.
    destruct error as [m | m | m | [m |]]; unfold verdict in Hnone;
      try discriminate;
      (destruct (failClosed config); [discriminate |]);
      repeat split; intros m'; discriminate.
Qed.

Lemma sidecar_unavailable_witness :
  failClosed failOpenConfig = false
  /\ exists res : BlockResult,
       (before_tool_call failOpenConfig
          (rejecting (SidecarUnavailableError "Connection refused"))
          bashEvent testContext initialState).1 = Returned (Some res)
       /\ block res = true.
Proof.
  split; [reflexivity |].
  exact (proj1 (sidecar_unavailable_always_blocks failOpenConfig
                  (rejecting (SidecarUnavailableError "Connection refused"))
                  bashEvent testContext initialState
                  (SidecarUnavailableError "Connection refused") eq_refl)
           "Connection refused" eq_refl).
Defined.

(** C9. [before_tool_call] does reject: it throws exactly when the provider
    rejects with a value that has no string form, and what it throws is
    the [TypeError] of [String(error)]. *)
Theorem before_tool_call_rejects_on_unprintable_value
    (config : SecureClawConfig) (guard : Guard) (event : BeforeToolCallEvent)
    (ctx : ToolContext) (st : PluginState) :
  ((before_tool_call config guard event ctx st).1 = Threw noStringForm
   <-> guard (guardRequestFor config event ctx (currentSessionId st))
       = Rejected (NonError None))
  /\ (forall e : Thrown,
        (before_tool_call config guard event ctx st).1 = Threw e ->
        e = noStringForm).
Proof.
  rewrite before_tool_call_outcome.
  destruct (guard _) as [mandate | error].
  - split; [split; discriminate | intros e; discriminate].
  - destruct error as [m | m | m | [m |]]; unfold verdict;
      try destruct (failClosed config);
      (split; [split; first [discriminate | reflexivity]
              | intros e He; first [discriminate | now injection He as <-]]).
Qed.

(** ** Audit export and post-verification *)

Lemma mret_only_logs : only_logs (mret tt).
Proof.
  intros st. simpl. repeat split. exists []. symmetry. apply app_nil_r.
Qed.

Lemma log_only_logs (level : Level) (msg : string) : only_logs (log level msg).
Proof.
  intros st. simpl. repeat split. exists [(level, msg)]. reflexivity.
Qed.

Lemma when_only_logs (b : bool) (c : Hook unit) :
  only_logs c -> only_logs (when b c).
Proof.
  intros Hc. destruct b; simpl; [exact Hc | exact mret_only_logs].
Qed.

(** The decision of [before_tool_call] reads nothing of the state but the
    current session id. *)
Lemma before_tool_call_reads_session_only config guard event ctx st st' :
  currentSessionId st' = currentSessionId st ->
  (before_tool_call config guard event ctx st').1
  = (before_tool_call config guard event ctx st).1.
Proof.
  intros Hsid. rewrite !before_tool_call_outcome, Hsid. reflexivity.
Qed.

(** C7. [exportDecision], [verifyBrowserState] and [verifyFileWrite]
    return normally on every input; [exportDecision] leaves the state as
    it is, the two verifications leave it as it is when not verbose and
    otherwise only append to the log; and running any of them before
    [before_tool_call] leaves the authorization outcome the same. *)
Theorem placeholders_do_not_touch_authorization
    (config : SecureClawConfig) (guard : Guard) (event : BeforeToolCallEvent)
    (ctx : ToolContext) (decision : DecisionTelemetryEvent)
    (tool : string) (ps : Params) (res : Js.Value) (chatty : bool)
    (st : PluginState) :
  exportDecision decision st = (Returned tt, st)
  /\ only_logs (verifyBrowserState tool ps res chatty)
  /\ only_logs (verifyFileWrite tool ps res chatty)
  /\ verifyBrowserState tool ps res false st = (Returned tt, st)
  /\ verifyFileWrite tool ps res false st = (Returned tt, st)
  /\ (before_tool_call config guard event ctx (exportDecision decision st).2).1
     = (before_tool_call config guard event ctx st).1
  /\ (before_tool_call config guard event ctx
        (verifyBrowserState tool ps res chatty st).2).1
     = (before_tool_call config guard event ctx st).1
  /\ (before_tool_call config guard event ctx
        (verifyFileWrite tool ps res chatty st).2).1
     = (before_tool_call config guard event ctx st).1.
Proof.
  assert (Hb : only_logs (verifyBrowserState tool ps res chatty))
    by (apply when_only_logs, log_only_logs).
  assert (Hf : only_logs (verifyFileWrite tool ps res chatty))
    by (apply when_only_logs, log_only_logs).
  repeat split; try reflexivity; try apply Hb; try apply Hf.
  - apply before_tool_call_reads_session_only, (Hb st).
  - apply before_tool_call_reads_session_only, (Hf st).
Qed.

(** ** The resource extractor *)

Lemma existsb_includes_spec (lowered : string) (patterns : list string) :
  existsb (fun pattern => Js.includes pattern lowered) patterns = true
  <-> exists pattern, In pattern patterns /\ Js.includes pattern lowered = true.
Proof. apply existsb_exists. Qed.

(** C6, as stated, fails: the string "[REDACTED]" is not sensitive, yet
    [redactResource] returns "[REDACTED]" on it (the string itself). *)
Lemma redacted_literal_is_not_sensitive :
  ~ (redactResource "[REDACTED]" = "[REDACTED]"
     <-> isSensitiveResource "[REDACTED]" = true).
Proof.
  intros [Hto _]. specialize (Hto eq_refl). vm_compute in Hto. discriminate.
Qed.

(** C6, amended. [isSensitiveResource r] holds exactly when the lowercase
    form of [r] contains one of the listed substrings; [redactResource r]
    is "[REDACTED]" when [r] is sensitive and [r] itself otherwise; so the
    result is "[REDACTED]" exactly when [r] is sensitive or [r] is already
    the string "[REDACTED]". *)
Theorem redactResource_spec (r : string) :
  (isSensitiveResource r = true
   <-> exists pattern, In pattern sensitivePatterns
                       /\ Js.includes pattern (Js.toLowerCase r) = true)
  /\ (isSensitiveResource r = true -> redactResource r = "[REDACTED]")
  /\ (isSensitiveResource r = false -> redactResource r = r)
  /\ (redactResource r = "[REDACTED]"
      <-> isSensitiveResource r = true \/ r = "[REDACTED]").
Proof.
  split; [apply existsb_includes_spec |].
  unfold redactResource.
  destruct (isSensitiveResource r) eqn:Hs.
  - split; [reflexivity |]. split; [discriminate |].
    split; [left | intros _]; reflexivity.
  - split; [discriminate |]. split; [reflexivity |]. split.
    + intros ->. right. reflexivity.
    + intros [Hf | ->]; [discriminate | reflexivity].
Qed.

Lemma length_substring_le (n : nat) (s : string) :
  String.length (String.substring 0 n s) <= n.
Proof.
  revert s. induction n as [| n IH]; intros [| c s]; simpl; try lia.
  specialize (IH s). lia.
Qed.

Lemma append_cons (c : ascii) (s t : string) :
  String c s +:+ t = String c (s +:+ t).
Proof. reflexivity. Qed.

Lemma append_empty_r (s : string) : s +:+ EmptyString = s.
Proof.
  induction s as [| c s IH]; [reflexivity | now rewrite append_cons, IH].
Qed.

Lemma append_unit_l (cur : string) (c : ascii) (w : string) :
  (cur +:+ String c EmptyString) +:+ w = cur +:+ String c w.
Proof.
  induction cur as [| d cur IH]; [reflexivity | now rewrite !append_cons, IH].
Qed.

Lemma split_go_first (cur s : string) :
  Js.split_go false cur s !! 0%nat = Some (cur +:+ leading_word s).
Proof.
  revert cur. induction s as [| c s IH]; intros cur; simpl.
  - now rewrite append_empty_r.
  - destruct (Js.is_space c); simpl.
    + now rewrite append_empty_r.
    + now rewrite IH, append_unit_l.
Qed.

Lemma split_go_resume (s : string) :
  Js.split_go true EmptyString s !! 0%nat = Some (leading_word (skip_spaces s)).
Proof.
  induction s as [| c s IH]; simpl; [reflexivity |].
  destruct (Js.is_space c) eqn:Hc; simpl.
  - exact IH.
  - rewrite Hc. apply split_go_first.
Qed.

Lemma split_go_second (cur s : string) :
  default "" (Js.split_go false cur s !! 1%nat) = second_piece s.
Proof.
  revert cur. unfold second_piece.
  induction s as [| c s IH]; intros cur; simpl; [reflexivity |].
  destruct (Js.is_space c) eqn:Hc; simpl.
  - rewrite Hc, split_go_resume. reflexivity.
  - apply IH.
Qed.

(** [parts[0] ?? "cmd"] and [parts[1] ?? ""] of [command.split(/\s+/)]. *)
Lemma split_spaces_words (command : string) :
  default "cmd" (Js.split_spaces command !! 0%nat) = first_piece command
  /\ default "" (Js.split_spaces command !! 1%nat) = second_piece command.
Proof.
  unfold Js.split_spaces. rewrite split_go_first, split_go_second.
  split; reflexivity.
Qed.

(** The pieces are the words when the command starts with a word; when it
    starts with white space the first piece is empty and the second piece
    is the first word. *)
Lemma pieces_of_a_trimmed_command (command : string) :
  leading_space command = false ->
  first_piece command = first_word command
  /\ second_piece command = second_word command.
Proof.
  unfold first_piece, second_piece, first_word, second_word.
  destruct command as [| c s]; [split; reflexivity |].
  cbn [leading_space skip_spaces]. intros ->. split; reflexivity.
Qed.

Lemma pieces_after_leading_space (command : string) :
  leading_space command = true ->
  first_piece command = ""
  /\ second_piece command = first_word command.
Proof.
  unfold first_piece, second_piece, first_word.
  destruct command as [| c s]; [discriminate |].
  cbn [leading_space leading_word after_word]. intros ->. split; reflexivity.
Qed.

(** The resource of a "Bash" call, case by case. *)
Lemma extractBashCommand_long (ps : Params) (command : string) :
  ps !! "command" = Some (Js.Str command) ->
  100 < String.length command ->
  extractResource "Bash" ps
  = String.substring 0 100
      (first_piece command +:+ " " +:+ second_piece command +:+ "...").
Proof.
  intros Hcmd Hlong.
  change (extractResource "Bash" ps) with (extractBashCommand ps).
  unfold extractBashCommand, string_param, maxLen. rewrite Hcmd.
  destruct (Nat.leb_spec (String.length command) 100) as [Hle | _]; [lia |].
  destruct (split_spaces_words command) as [-> ->]. reflexivity.
Qed.

(** C10. The claim fails on a long command that starts with white space:
    the first piece of the split is empty, so the command name goes where
    the first argument should be and the first argument is lost. *)
Theorem bash_leading_space_loses_the_first_argument :
  leadingSpaceRemove !! "command" = Some (Js.Str leadingSpaceCommand)
  /\ 100 < String.length leadingSpaceCommand
  /\ first_word leadingSpaceCommand = "rm"
  /\ second_word leadingSpaceCommand = "-rf"
  /\ extractResource "Bash" leadingSpaceRemove = " rm..."
  /\ extractResource "Bash" leadingSpaceRemove
     <> String.substring 0 100 ("rm" +:+ " " +:+ "-rf" +:+ "...").
Proof.
  repeat split; try (vm_compute; reflexivity).
  - vm_compute. repeat constructor.
  - vm_compute. discriminate.
Qed.

(** The long command of resource-extractor.test.ts is under the limit and
    comes back as it is; a command above the limit is cut as stated. *)
Example bash_truncation_cases :
  extractResource "Bash"
    {[ "command" := Js.Str "npm run build && npm test && npm run lint && npm run format && echo done" ]}
  = "npm run build && npm test && npm run lint && npm run format && echo done"
  /\ extractResource "Bash"
       {[ "command" := Js.Str "docker   run --rm -v /var/run/docker.sock:/var/run/docker.sock -e A=1 -e B=2 -e C=3 -e D=4 image:latest sh -c true" ]}
     = "docker run..."
  /\ extractResource "Bash"
       {[ "command" := Js.Str " docker run --rm -v /var/run/docker.sock:/var/run/docker.sock -e A=1 -e B=2 -e C=3 -e D=4 image:latest sh -c true" ]}
     = " docker...".
Proof. vm_compute. repeat split. Qed.

(** ** The decision procedure of the engine *)

Section EvaluatorFacts.

Variable matches : string -> string -> bool.
Variable mandate : string.

Lemma deny_phase_fires (document : Engine.PolicyDocument)
    (request : Engine.AuthorizationRequest) (rule : Engine.Rule) :
  In rule (Engine.rules document) ->
  Engine.effect rule = Engine.Deny ->
  Engine.structurally_matches matches rule request = true ->
  exists first : Engine.Rule,
    find (fun r => Engine.is_deny r && Engine.structurally_matches matches r request)
         (Engine.rules document) = Some first.
Proof.
  intros Hin Heff Hmatch.
  destruct (find _ (Engine.rules document)) as [first |] eqn:Hfind.
  - exists first. reflexivity.
  - apply find_none with (x := rule) in Hfind; [| exact Hin].
    unfold Engine.is_deny in Hfind. rewrite Heff, Hmatch in Hfind. discriminate.
Qed.

(** C2. Deny precedence: if some Deny rule and some Allow rule of the
    document both structurally match the request, at whatever positions
    [i] and [j] they stand, the decision has [allow = false]. *)
Theorem deny_takes_precedence (document : Engine.PolicyDocument)
    (request : Engine.AuthorizationRequest) (i j : nat)
    (deny_rule allow_rule : Engine.Rule) :
  Engine.rules document !! i = Some deny_rule ->
  Engine.effect deny_rule = Engine.Deny ->
  Engine.structurally_matches matches deny_rule request = true ->
  Engine.rules document !! j = Some allow_rule ->
  Engine.effect allow_rule = Engine.Allow ->
  Engine.structurally_matches matches allow_rule request = true ->
  Engine.allow (Engine.evaluate matches mandate document request) = false.
Proof.
  intros Hi Hdeny Hdmatch _ _ _.
  assert (Hin : In deny_rule (Engine.rules document)).
  { apply list_elem_of_In. eapply list_elem_of_lookup_2. exact Hi. }
  destruct (deny_phase_fires document request deny_rule Hin Hdeny Hdmatch)
    as [first Hfirst].
  unfold Engine.evaluate. rewrite Hfirst. reflexivity.
Qed.

(** C4. Default deny: on a document with zero rules every request gets
    [allow = false], the reason "no_matching_allow_rule", no matched rule
    (and no mandate). *)
Theorem empty_document_denies (document : Engine.PolicyDocument)
    (request : Engine.AuthorizationRequest) :
  Engine.rules document = [] ->
  Engine.evaluate matches mandate document request
  = {| Engine.allow := false;
       Engine.reason := "no_matching_allow_rule";
       Engine.matched_rule := None;
       Engine.mandate_id := None |}.
Proof.
  intros Hempty. unfold Engine.evaluate. rewrite Hempty. reflexivity.
Qed.

End EvaluatorFacts.

Lemma deny_takes_precedence_witness :
  Engine.allow (Engine.evaluate Engine.glob "m-1" allow_then_deny aws_request) = false.
Proof.
  apply (deny_takes_precedence Engine.glob "m-1" allow_then_deny aws_request
           1 0 deny_aws allow_read); reflexivity.
Defined.

Lemma empty_document_denies_witness :
  Engine.evaluate Engine.glob "m-1" no_rules aws_request
  = {| Engine.allow := false;
       Engine.reason := "no_matching_allow_rule";
       Engine.matched_rule := None;
       Engine.mandate_id := None |}.
Proof.
  apply (empty_document_denies Engine.glob "m-1" no_rules aws_request).
  reflexivity.
Defined.

(** The deny also wins when it stands first, and the allow alone would
    have granted the request. *)
Example deny_precedence_cases :
  Engine.allow (Engine.evaluate Engine.glob "m-1"
                  {| Engine.version := "1.0"; Engine.rules := [deny_aws; allow_read] |}
                  aws_request) = false
  /\ Engine.allow (Engine.evaluate Engine.glob "m-1"
                     {| Engine.version := "1.0"; Engine.rules := [allow_read] |}
                     aws_request) = true.
Proof. vm_compute. split; reflexivity. Qed.

(** ** Post-verification leaves the gate alone *)

Lemma keeps_mret {A} (a : A) : keeps_closure (mret a : Hook A).
Proof. intros st. repeat split. Qed.

Lemma keeps_raise {A} (e : Thrown) : keeps_closure (raise e : Hook A).
Proof. intros st. repeat split. Qed.

Lemma keeps_log (level : Level) (msg : string) : keeps_closure (log level msg).
Proof. intros st. repeat split. Qed.

Lemma keeps_bind {A B} (c : Hook A) (f : A -> Hook B) :
  keeps_closure c -> (forall a, keeps_closure (f a)) -> keeps_closure (c ≫= f).
Proof.
  intros Hc Hf st. unfold mbind, hook_bind.
  specialize (Hc st). destruct (c st) as [[a | e] st1]; simpl in *.
  - destruct (Hf a st1) as (H1 & H2 & H3). destruct Hc as (G1 & G2 & G3).
    repeat split; congruence.
  - exact Hc.
Qed.

Lemma keeps_when (b : bool) (c : Hook unit) :
  keeps_closure c -> keeps_closure (when b c).
Proof. intros Hc. destruct b; [exact Hc | apply keeps_mret]. Qed.

(** Whether it returns or throws, [after_tool_call] changes neither the
    session id nor the metrics, so the next [before_tool_call] decides as
    it would have without it. *)
Lemma after_tool_call_keeps_closure config event :
  keeps_closure (after_tool_call config event).
Proof.
  unfold after_tool_call.
  destruct (negb (enablePostVerification config)); [apply keeps_mret |].
  apply keeps_bind; [apply keeps_when, keeps_log | intros _].
  apply keeps_bind.
  - unfold action_startsWith.
    destruct (extractAction _); [apply keeps_mret | apply keeps_raise].
  - intros is_browser. apply keeps_bind; [| intros _].
    + apply keeps_when. unfold verifyBrowserState. apply keeps_when, keeps_log.
    + apply keeps_when. unfold verifyFileWrite. apply keeps_when, keeps_log.
Qed.

Lemma after_tool_call_then_gate config guard after_event event ctx st :
  (before_tool_call config guard event ctx
     (after_tool_call config after_event st).2).1
  = (before_tool_call config guard event ctx st).1.
Proof.
  apply before_tool_call_reads_session_only, after_tool_call_keeps_closure.
Qed.

(** * Further properties of the extractor *)

Lemma length_append (s t : string) :
  String.length (s +:+ t) = String.length s + String.length t.
Proof.
  induction s as [| c s IH]; [reflexivity |].
  rewrite append_cons. simpl. now rewrite IH.
Qed.

Lemma substring_whole (n : nat) (s : string) :
  String.length s <= n -> String.substring 0 n s = s.
Proof.
  revert n. induction s as [| c s IH]; intros [| n] Hlen; simpl in *;
    try reflexivity; try lia.
  f_equal. apply IH. lia.
Qed.

(** X1. The resource of a "Task" call is "task:" followed by at most the
    first 50 characters of the prompt: it is at most 55 long, starts with
    "task:", and carries a prompt of at most 50 characters whole. *)
Theorem task_resource_bounded (ps : Params) :
  String.length (extractResource "Task" ps) <= 55
  /\ Js.startsWith "task:" (extractResource "Task" ps) = true
  /\ (forall prompt : string,
        ps !! "prompt" = Some (Js.Str prompt) ->
        String.length prompt <= 50 ->
        extractResource "Task" ps = "task:" +:+ prompt).
Proof.
  change (extractResource "Task" ps)
    with (match string_param ps "prompt" with
          | Some prompt => "task:" +:+ Js.slice0 50 prompt
          | None => "task:unknown"
          end).
  unfold string_param.
  destruct (ps !! "prompt") as [[| | b | n | prompt | items | fields] |] eqn:Hp;
    try (split; [simpl; lia |]; split; [reflexivity | intros p Hq; discriminate]).
  split; [| split].
  - rewrite length_append. pose proof (length_substring_le 50 prompt).
    unfold Js.slice0. simpl. lia.
  - exact (prefix_app "task:" _).
  - intros p Hq Hlen. assert (p = prompt) by congruence. subst p.
    f_equal. apply substring_whole, Hlen.
Qed.

Lemma first_string_param_app (ps : Params) (before : list string) (rest : list string) :
  (forall k, In k before -> string_param ps k = None) ->
  first_string_param ps (before ++ rest)%list = first_string_param ps rest.
Proof.
  induction before as [| k before IH]; intros Hnone; simpl; [reflexivity |].
  rewrite (Hnone k (or_introl eq_refl)). apply IH.
  intros k' Hk'. apply Hnone. right. exact Hk'.
Qed.

(** X2. [extractFilePath] returns the value of the first key, in the order
    file_path, filePath, path, file, filename, that holds a string; keys
    that hold something else are passed over. *)
Theorem extractFilePath_first_string_wins (ps : Params)
    (before : list string) (key : string) (after : list string) (s : string) :
  pathKeys = (before ++ key :: after)%list ->
  (forall k, In k before -> string_param ps k = None) ->
  string_param ps key = Some s ->
  extractFilePath ps = s.
Proof.
  intros Hkeys Hnone Hkey. unfold extractFilePath.
  rewrite Hkeys, first_string_param_app by exact Hnone.
  simpl. rewrite Hkey. reflexivity.
Qed.

Lemma extractFilePath_first_string_wins_witness :
  extractFilePath pathAndFile = "/app/config.json".
Proof.
  apply (extractFilePath_first_string_wins pathAndFile
           ["file_path"; "filePath"] "path" ["file"; "filename"]).
  - reflexivity.
  - intros k [<- | [<- | []]]; vm_compute; reflexivity.
  - vm_compute. reflexivity.
Defined.

Lemma extractFilePath_none (ps : Params) :
  (forall k, In k pathKeys -> string_param ps k = None) ->
  extractFilePath ps = "file:unknown".
Proof.
  intros Hnone. unfold extractFilePath.
  rewrite <- (app_nil_r pathKeys), first_string_param_app by exact Hnone.
  reflexivity.
Qed.

(** The [switch] of [extractResource] has a case for every key of
    [actionMap]; a tool name outside the table takes the [default] case. *)
Lemma unknown_tool_default_case (tool : string) (ps : Params) :
  actionMap !! tool = None ->
  extractResource tool ps
  = Js.or_else (extractFilePath ps)
      (Js.or_else (default "" (string_param ps "path"))
         (Js.or_else (default "" (string_param ps "target"))
            (tool +:+ ":params"))).
Proof.
  intros Hnone. unfold extractResource, is_one_of, existsb.
  repeat match goal with
  | |- context [String.eqb tool ?k] =>
      destruct (String.eqb_spec tool k) as [-> | _];
      [vm_compute in Hnone; discriminate |]
  end.
  reflexivity.
Qed.

(** X3. For a tool name outside the action table the resource is never the
    empty string. *)
Theorem unknown_tool_resource_nonempty (tool : string) (ps : Params) :
  actionMap !! tool = None ->
  extractResource tool ps <> "".
Proof.
  intros Hnone. rewrite unknown_tool_default_case by exact Hnone.
  unfold Js.or_else.
  destruct (extractFilePath ps); [| discriminate].
  destruct (default "" (string_param ps "path")); [| discriminate].
  destruct (default "" (string_param ps "target")); [| discriminate].
  destruct tool; discriminate.
Qed.

Lemma unknown_tool_resource_nonempty_witness :
  extractResource "CustomTool" {[ "file" := Js.Str "" ]} <> "".
Proof.
  apply (unknown_tool_resource_nonempty "CustomTool"). vm_compute. reflexivity.
Defined.

(** X4. For a tool name outside the action table, when none of the path
    keys holds a string the resource is "file:unknown", whatever
    [params.target] holds: [extractFilePath] has already answered with a
    truthy string, so the later alternatives are not reached. *)
Theorem unknown_tool_ignores_target (tool : string) (ps : Params) :
  actionMap !! tool = None ->
  (forall k, In k pathKeys -> string_param ps k = None) ->
  extractResource tool ps = "file:unknown".
Proof.
  intros Hnone Hkeys. rewrite unknown_tool_default_case by exact Hnone.
  rewrite extractFilePath_none by exact Hkeys. reflexivity.
Qed.

Lemma unknown_tool_ignores_target_witness :
  extractResource "DbQuery" targetOnly = "file:unknown".
Proof.
  apply (unknown_tool_ignores_target "DbQuery" targetOnly).
  - vm_compute. reflexivity.
  - intros k [<- | [<- | [<- | [<- | [<- | []]]]]]; vm_compute; reflexivity.
Defined.

Lemma includes_cons_false (pat : string) (c : ascii) (s : string) :
  Js.includes pat (String c s) = false ->
  String.prefix pat (String c s) = false /\ Js.includes pat s = false.
Proof.
  simpl. intros H. apply orb_false_iff in H. exact H.
Qed.

Lemma append_empty_l (s : string) : EmptyString +:+ s = s.
Proof. reflexivity. Qed.

Lemma slash_split_unique (s s' t t' : string) :
  Js.includes "/" s = false ->
  Js.includes "/" s' = false ->
  s +:+ String "/" t = s' +:+ String "/" t' ->
  s = s' /\ t = t'.
Proof.
  revert s'. induction s as [| c s IH]; intros [| c' s'] Hs Hs' Heq;
    rewrite ?append_empty_l, ?append_cons in Heq.
  - injection Heq as ->. split; reflexivity.
  - injection Heq as Hc _. subst c'.
    apply includes_cons_false in Hs' as [Hp _].
    exfalso. exact (eq_true_false_abs _ (prefix_app "/" s') Hp).
  - injection Heq as Hc _. subst c.
    apply includes_cons_false in Hs as [Hp _].
    exfalso. exact (eq_true_false_abs _ (prefix_app "/" s) Hp).
  - injection Heq as -> Heq.
    apply includes_cons_false in Hs as [_ Hs].
    apply includes_cons_false in Hs' as [_ Hs'].
    destruct (IH s' Hs Hs' Heq) as [-> ->]. split; reflexivity.
Qed.

(** X5. For "mcp_tool" calls that give [server] and [tool] as strings, the
    resource "mcp:<server>/<tool>" determines both, provided the server
    names contain no slash. *)
Theorem mcp_resource_determines_server_and_tool
    (ps ps' : Params) (server tool server' tool' : string) :
  string_param ps "server" = Some server ->
  string_param ps "tool" = Some tool ->
  string_param ps' "server" = Some server' ->
  string_param ps' "tool" = Some tool' ->
  Js.includes "/" server = false ->
  Js.includes "/" server' = false ->
  extractResource "mcp_tool" ps = extractResource "mcp_tool" ps' ->
  server = server' /\ tool = tool'.
Proof.
  intros Hs Ht Hs' Ht' Hns Hns' Heq.
  change (extractMcpResource ps = extractMcpResource ps') in Heq.
  unfold extractMcpResource in Heq. rewrite Hs, Ht, Hs', Ht' in Heq.
  injection Heq as Heq.
  exact (slash_split_unique server server' tool tool' Hns Hns' Heq).
Qed.

Lemma mcp_resource_witness :
  "github" = "github" /\ "issues/create" = "issues/create".
Proof.
  apply (mcp_resource_determines_server_and_tool mcpCall mcpCallWithAlias);
    vm_compute; reflexivity.
Defined.

Lemma toLowerCase_app (s t : string) :
  Js.toLowerCase (s +:+ t) = Js.toLowerCase s +:+ Js.toLowerCase t.
Proof.
  induction s as [| c s IH]; [reflexivity |].
  rewrite append_cons. simpl. rewrite IH. reflexivity.
Qed.

Lemma prefix_app_r (p s t : string) :
  String.prefix p s = true -> String.prefix p (s +:+ t) = true.
Proof.
  revert s. induction p as [| c p IH]; intros s Hp.
  - destruct (s +:+ t); reflexivity.
  - destruct s as [| d s]; [discriminate |].
    rewrite append_cons. simpl in *.
    destruct (ascii_dec c d); [apply IH, Hp | discriminate].
Qed.

Lemma includes_app_l (pat s t : string) :
  Js.includes pat s = true -> Js.includes pat (s +:+ t) = true.
Proof.
  induction s as [| c s IH]; intros H.
  - simpl in H. rewrite orb_false_r in H.
    destruct pat; [| discriminate]. destruct t; reflexivity.
  - rewrite append_cons. simpl in *. apply orb_true_iff in H as [H | H].
    + apply orb_true_iff. left.
      exact (prefix_app_r pat (String c s) t H).
    + rewrite (IH H). apply orb_true_r.
Qed.

Lemma includes_app_mid (pat pre s : string) :
  Js.includes pat s = true -> Js.includes pat (pre +:+ s) = true.
Proof.
  intros H. induction pre as [| c pre IH]; [exact H |].
  rewrite append_cons. simpl. rewrite IH. apply orb_true_r.
Qed.

(** X6. A sensitive resource stays sensitive inside any longer text, and
    that text is redacted as a whole. *)
Theorem sensitive_inside_any_text (pre r post : string) :
  isSensitiveResource r = true ->
  isSensitiveResource (pre +:+ r +:+ post) = true
  /\ redactResource (pre +:+ r +:+ post) = "[REDACTED]".
Proof.
  intros Hr.
  assert (Hs : isSensitiveResource (pre +:+ r +:+ post) = true).
  { unfold isSensitiveResource in *.
    apply existsb_exists in Hr as (pat & Hin & Hinc).
    apply existsb_exists. exists pat. split; [exact Hin |].
    rewrite !toLowerCase_app. apply includes_app_mid, includes_app_l, Hinc. }
  split; [exact Hs |]. unfold redactResource. rewrite Hs. reflexivity.
Qed.

Lemma sensitive_inside_any_text_witness :
  isSensitiveResource ("cat " +:+ "~/.SSH/config" +:+ " | nc host 9") = true
  /\ redactResource ("cat " +:+ "~/.SSH/config" +:+ " | nc host 9") = "[REDACTED]".
Proof.
  apply (sensitive_inside_any_text "cat " "~/.SSH/config" " | nc host 9").
  vm_compute. reflexivity.
Defined.

Lemma lower_unit_idem (c : ascii) : Js.lower_unit (Js.lower_unit c) = Js.lower_unit c.
Proof.
  destruct c as [[] [] [] [] [] [] [] []]; vm_compute; reflexivity.
Qed.

Lemma toLowerCase_idem (s : string) : Js.toLowerCase (Js.toLowerCase s) = Js.toLowerCase s.
Proof.
  induction s as [| c s IH]; simpl; [reflexivity |].
  now rewrite lower_unit_idem, IH.
Qed.

(** X7. Sensitivity does not depend on letter case: two resources with the
    same lowercase form are both sensitive or both not, and lowercasing a
    resource does not change the answer. *)
Theorem sensitivity_ignores_case (r r' : string) :
  Js.toLowerCase r = Js.toLowerCase r' ->
  isSensitiveResource r = isSensitiveResource r'
  /\ isSensitiveResource (Js.toLowerCase r) = isSensitiveResource r.
Proof.
  intros Heq. unfold isSensitiveResource.
  rewrite toLowerCase_idem, Heq. split; reflexivity.
Qed.

Lemma sensitivity_ignores_case_witness :
  isSensitiveResource "API_Key.TXT" = isSensitiveResource "api_KEY.txt"
  /\ isSensitiveResource (Js.toLowerCase "API_Key.TXT") = isSensitiveResource "API_Key.TXT".
Proof.
  apply (sensitivity_ignores_case "API_Key.TXT" "api_KEY.txt").
  vm_compute. reflexivity.
Defined.

(** X8. What [redactResource] returns is never sensitive, and redacting
    twice is the same as redacting once. *)
Theorem redactResource_idempotent (r : string) :
  isSensitiveResource (redactResource r) = false
  /\ redactResource (redactResource r) = redactResource r.
Proof.
  unfold redactResource at 1 3 4.
  destruct (isSensitiveResource r) eqn:Hs.
  - split; vm_compute; reflexivity.
  - split; [exact Hs |]. unfold redactResource. rewrite Hs. reflexivity.
Qed.

Lemma actionMap_table : actionMap = list_to_map actionTable.
Proof. reflexivity. Qed.

Lemma actionMap_lookup (tool category : string) :
  actionMap !! tool = Some category <-> In (tool, category) actionTable.
Proof.
  rewrite actionMap_table. split.
  - intros H. apply list_elem_of_In. exact (elem_of_list_to_map_2 _ _ _ H).
  - intros H. unfold actionTable in H. simpl in H.
    repeat (destruct H as [H | H]; [injection H as <- <-; vm_compute; reflexivity |]).
    destruct H.
Qed.

(** X9. [extractAction] yields a category that does not start with "tool."
    exactly for the pairs of the action table: no other tool name reaches
    one of the built-in categories. *)
Theorem extractAction_categories_come_from_table (tool category : string) :
  (extractAction tool = ActionName category
   /\ Js.startsWith "tool." category = false)
  <-> In (tool, category) actionTable.
Proof.
  split.
  - intros [Hact Hpre]. apply actionMap_lookup.
    unfold extractAction in Hact.
    destruct (actionMap !! tool) as [c |]; [congruence |].
    destruct (existsb _ _); [discriminate |].
    injection Hact as <-.
    exfalso. exact (eq_true_false_abs _ (prefix_app "tool." _) Hpre).
  - intros Hin. pose proof Hin as Hlook. apply actionMap_lookup in Hlook.
    unfold extractAction. rewrite Hlook. split; [reflexivity |].
    unfold actionTable in Hin. simpl in Hin.
    repeat (destruct Hin as [Hin | Hin]; [injection Hin as <- <-; reflexivity |]).
    destruct Hin.
Qed.

(** X10. The action is "shell.exec" for the tool name "Bash" and for no
    other, letter case included. *)
Theorem only_bash_is_shell_exec (tool : string) :
  extractAction tool = ActionName "shell.exec" <-> tool = "Bash".
Proof.
  split.
  - intros Hact. unfold extractAction in Hact.
    destruct (actionMap !! tool) as [c |] eqn:Hlook.
    + injection Hact as ->. apply actionMap_lookup in Hlook.
      unfold actionTable in Hlook. simpl in Hlook.
      repeat (destruct Hlook as [Hlook | Hlook];
              [injection Hlook as <-; try reflexivity; discriminate |]).
      destruct Hlook.
    + destruct (existsb _ _); discriminate.
  - intros ->. reflexivity.
Qed.

(** X12. The resource of a "Bash" command longer than 100 characters that
    starts with a word depends on its first two words only: two such
    commands that agree on them get the same resource. *)
Theorem long_bash_resource_depends_on_two_words
    (ps ps' : Params) (command command' : string) :
  ps !! "command" = Some (Js.Str command) ->
  ps' !! "command" = Some (Js.Str command') ->
  100 < String.length command ->
  100 < String.length command' ->
  leading_space command = false ->
  leading_space command' = false ->
  first_word command = first_word command' ->
  second_word command = second_word command' ->
  extractResource "Bash" ps = extractResource "Bash" ps'.
Proof.
  intros Hc Hc' Hlen Hlen' Hs Hs' H1 H2.
  rewrite (extractBashCommand_long ps command Hc Hlen).
  rewrite (extractBashCommand_long ps' command' Hc' Hlen').
  destruct (pieces_of_a_trimmed_command command Hs) as [-> ->].
  destruct (pieces_of_a_trimmed_command command' Hs') as [-> ->].
  rewrite H1, H2. reflexivity.
Qed.

Lemma long_bash_resource_witness :
  extractResource "Bash" longRemove = extractResource "Bash" longRemoveRoot.
Proof.
  apply (long_bash_resource_depends_on_two_words longRemove longRemoveRoot
           "rm -rf /var/lib/app/cache /var/lib/app/tmp /var/lib/app/logs /var/lib/app/sessions /var/lib/app/uploads"
           "rm   -rf / --no-preserve-root && echo the quick brown fox jumps over the lazy dog again and again and again");
    vm_compute; try reflexivity; lia.
Defined.

(** X30. The resource of a "Bash" call, case by case: at most 100 long; a
    [command] of at most 100 characters as it is; a longer one that starts
    with a word gives its first word, a space, its second word and "...",
    cut to 100; a longer one that starts with white space gives a space,
    its first word and "...", cut to 100; no [command] string gives
    "bash:unknown". *)
Theorem bash_resource_cases (ps : Params) :
  String.length (extractResource "Bash" ps) <= 100
  /\ (forall command : string,
        ps !! "command" = Some (Js.Str command) ->
        String.length command <= 100 ->
        extractResource "Bash" ps = command)
  /\ (forall command : string,
        ps !! "command" = Some (Js.Str command) ->
        100 < String.length command ->
        leading_space command = false ->
        extractResource "Bash" ps
        = String.substring 0 100
            (first_word command +:+ " " +:+ second_word command +:+ "..."))
  /\ (forall command : string,
        ps !! "command" = Some (Js.Str command) ->
        100 < String.length command ->
        leading_space command = true ->
        extractResource "Bash" ps
        = String.substring 0 100 (" " +:+ first_word command +:+ "..."))
  /\ ((forall command : string, ps !! "command" <> Some (Js.Str command)) ->
      extractResource "Bash" ps = "bash:unknown").
Proof.
  split; [| split; [| split; [| split]]].
  - change (extractResource "Bash" ps) with (extractBashCommand ps).
    unfold extractBashCommand, string_param, maxLen.
    destruct (ps !! "command") as [[| | b | n | command | items | fields] |];
      try (simpl; lia).
    destruct (Nat.leb_spec (String.length command) 100) as [Hle | _]; [exact Hle |].
    apply length_substring_le.
  - intros command Hcmd Hshort.
    change (extractResource "Bash" ps) with (extractBashCommand ps).
    unfold extractBashCommand, string_param, maxLen. rewrite Hcmd.
    destruct (Nat.leb_spec (String.length command) 100); [reflexivity | lia].
  - intros command Hcmd Hlong Hword.
    rewrite (extractBashCommand_long ps command Hcmd Hlong).
    destruct (pieces_of_a_trimmed_command command Hword) as [-> ->]. reflexivity.
  - intros command Hcmd Hlong Hspace.
    rewrite (extractBashCommand_long ps command Hcmd Hlong).
    destruct (pieces_after_leading_space command Hspace) as [-> ->]. reflexivity.
  - intros Hnone.
    change (extractResource "Bash" ps) with (extractBashCommand ps).
    unfold extractBashCommand, string_param.
    destruct (ps !! "command") as [[| | b | n | command | items | fields] |];
      try reflexivity.
    exfalso. exact (Hnone command eq_refl).
Qed.

(** * Further properties of the hooks *)

Lemma map_get_set_eq (key : string) (v : Metrics) (m : list (string * Metrics)) :
  map_get key (map_set key v m) = Some v.
Proof.
  induction m as [| [k w] m IH]; simpl.
  - now rewrite String.eqb_refl.
  - destruct (String.eqb k key) eqn:Hk; simpl; rewrite Hk; [reflexivity | exact IH].
Qed.

Lemma map_get_set_ne (key other : string) (v : Metrics) (m : list (string * Metrics)) :
  other <> key ->
  map_get other (map_set key v m) = map_get other m.
Proof.
  intros Hne. induction m as [| [k w] m IH]; simpl.
  - destruct (String.eqb_spec key other); [congruence | reflexivity].
  - destruct (String.eqb_spec k key) as [-> | Hk]; simpl.
    + destruct (String.eqb_spec key other); [congruence | reflexivity].
    + destruct (String.eqb k other); [reflexivity | exact IH].
Qed.

Lemma map_set_set (key : string) (v w : Metrics) (m : list (string * Metrics)) :
  map_set key w (map_set key v m) = map_set key w m.
Proof.
  induction m as [| [k u] m IH]; simpl.
  - now rewrite String.eqb_refl.
  - destruct (String.eqb k key) eqn:Hk; simpl; rewrite Hk; [reflexivity | now rewrite IH].
Qed.

Lemma on_guard_error_metrics config tool act metrics error st :
  toolCallMetrics (on_guard_error config tool act metrics error st).2
  = if blocks (verdict config error)
    then map_set tool (blocked_up metrics) (toolCallMetrics st)
    else toolCallMetrics st.
Proof.
  destruct error as [m | m | m | [m |]]; unfold on_guard_error, verdict.
  - unfold mbind, hook_bind, set_metrics, update, when.
    destruct (verbose config); reflexivity.
  - reflexivity.
  - unfold mbind, hook_bind, errorMessageOf, mret, hook_ret.
    destruct (failClosed config); reflexivity.
  - unfold mbind, hook_bind, errorMessageOf, mret, hook_ret.
    destruct (failClosed config); reflexivity.
  - reflexivity.
Qed.

Lemma on_guard_error_keeps_session config tool act metrics error st :
  currentSessionId (on_guard_error config tool act metrics error st).2 = currentSessionId st
  /\ sessionStartTime (on_guard_error config tool act metrics error st).2 = sessionStartTime st.
Proof.
  destruct error as [m | m | m | [m |]]; unfold on_guard_error.
  - unfold mbind, hook_bind, set_metrics, update, when.
    destruct (verbose config); split; reflexivity.
  - split; reflexivity.
  - unfold mbind, hook_bind, errorMessageOf, mret, hook_ret.
    destruct (failClosed config); split; reflexivity.
  - unfold mbind, hook_bind, errorMessageOf, mret, hook_ret.
    destruct (failClosed config); split; reflexivity.
  - split; reflexivity.
Qed.

Lemma before_tool_call_metrics config guard event ctx st :
  toolCallMetrics (before_tool_call config guard event ctx st).2
  = map_set (toolName event)
      (if blocks (before_tool_call config guard event ctx st).1
       then blocked_up (count_up (metrics_of (toolName event) st))
       else count_up (metrics_of (toolName event) st))
      (toolCallMetrics st).
Proof.
  rewrite before_tool_call_outcome.
  destruct (before_tool_call_run config guard event ctx st)
    as (st1 & _ & _ & Hmet & _ & ->).
  destruct (guard _) as [mandate | err].
  - exact Hmet.
  - rewrite on_guard_error_metrics, Hmet.
    destruct (blocks (verdict config err)); [apply map_set_set | reflexivity].
Qed.

Lemma before_tool_call_keeps_session config guard event ctx st :
  currentSessionId (before_tool_call config guard event ctx st).2 = currentSessionId st
  /\ sessionStartTime (before_tool_call config guard event ctx st).2 = sessionStartTime st.
Proof.
  destruct (before_tool_call_run config guard event ctx st)
    as (st1 & Hsid & Hstart & _ & _ & ->).
  destruct (guard _) as [mandate | err].
  - split; [exact Hsid | exact Hstart].
  - destruct (on_guard_error_keeps_session config (toolName event)
                (extractAction (toolName event))
                (count_up (metrics_of (toolName event) st)) err st1) as [-> ->].
    split; [exact Hsid | exact Hstart].
Qed.

(** X13. [before_tool_call] counts the call on the metrics of its tool: the
    count goes up by one, the blocked count by one exactly when the call
    is blocked; the metrics of other tools, the session id and the start
    time stay as they were. *)
Theorem before_tool_call_counts_the_call config guard event ctx st :
  map_get (toolName event)
    (toolCallMetrics (before_tool_call config guard event ctx st).2)
  = Some {| count := S (count (metrics_of (toolName event) st));
            blocked := blocked (metrics_of (toolName event) st)
                       + (if blocks (before_tool_call config guard event ctx st).1
                          then 1 else 0) |}
  /\ (forall other : string,
        other <> toolName event ->
        map_get other (toolCallMetrics (before_tool_call config guard event ctx st).2)
        = map_get other (toolCallMetrics st))
  /\ currentSessionId (before_tool_call config guard event ctx st).2 = currentSessionId st
  /\ sessionStartTime (before_tool_call config guard event ctx st).2 = sessionStartTime st.
Proof.
  rewrite before_tool_call_metrics. split; [| split].
  - rewrite map_get_set_eq. f_equal.
    destruct (blocks _); unfold blocked_up, count_up; simpl; f_equal; lia.
  - intros other Hne. apply map_get_set_ne, Hne.
  - apply before_tool_call_keeps_session.
Qed.

Lemma logs_mret {A} (a : A) : logs_lines 0 (mret a : Hook A).
Proof. intros st. exists a, []. now rewrite add_lines_nil. Qed.

Lemma logs_read {A} (f : PluginState -> A) : logs_lines 0 (read f).
Proof. intros st. exists (f st), []. now rewrite add_lines_nil. Qed.

Lemma logs_log (level : Level) (msg : string) : logs_lines 1 (log level msg).
Proof. intros st. exists tt, [(level, msg)]. split; reflexivity. Qed.

Lemma logs_bind {A B} (n k : nat) (c : Hook A) (f : A -> Hook B) :
  logs_lines n c -> (forall a, logs_lines k (f a)) -> logs_lines (n + k) (c ≫= f).
Proof.
  intros Hc Hf st. destruct (Hc st) as (a & l1 & Hrun & Hlen).
  destruct (Hf a (add_lines l1 st)) as (b & l2 & Hrun2 & Hlen2).
  exists b, (l1 ++ l2)%list. unfold mbind, hook_bind.
  rewrite Hrun, Hrun2, add_lines_app. split; [reflexivity |].
  rewrite List.length_app. lia.
Qed.

Lemma logs_log_metrics (entries : list (string * Metrics)) :
  logs_lines (List.length entries) (log_metrics entries).
Proof.
  induction entries as [| [tool m] entries IH].
  - apply logs_mret.
  - change (List.length ((tool, m) :: entries)) with (1 + List.length entries).
    simpl log_metrics. apply logs_bind; [apply logs_log | intros _; exact IH].
Qed.

(** One run of [session_end]. *)
Lemma session_end_run config now event st :
  exists lines : list (Level * string),
    session_end config now event st
    = (Returned tt,
       {| currentSessionId := None; sessionStartTime := None;
          toolCallMetrics := []; logged := (logged st ++ lines)%list |})
    /\ List.length lines
       = if verbose config then 3 + List.length (toolCallMetrics st) else 0.
Proof.
  unfold session_end.
  unfold mbind at 1, hook_bind at 1, read at 1. lazy beta iota zeta.
  unfold mbind at 1, hook_bind at 1.
  destruct (verbose config); unfold when.
  - unfold mbind, hook_bind, log, update, read. lazy beta iota zeta.
    cbn [toolCallMetrics logged].
    match goal with
    | |- context [log_metrics ?es ?s] =>
        destruct (logs_log_metrics es s) as ([] & l & Hrun & Hlen)
    end.
    unfold log, update in Hrun. rewrite Hrun. unfold add_lines. cbn [logged].
    eexists. split.
    + rewrite <- !app_assoc. reflexivity.
    + rewrite !List.length_app, Hlen. simpl. lia.
  - exists []. split; [| reflexivity].
    unfold mret, hook_ret, update. rewrite app_nil_r. reflexivity.
Qed.

(** X14. No tool ever has more blocked calls than calls: the four hooks keep
    this, and it holds of the initial state. *)
Theorem metrics_ok_is_kept config guard now start_event end_event event ctx after_event st :
  metrics_ok st ->
  metrics_ok (session_start config now start_event st).2
  /\ metrics_ok (session_end config now end_event st).2
  /\ metrics_ok (before_tool_call config guard event ctx st).2
  /\ metrics_ok (after_tool_call config after_event st).2.
Proof.
  intros Hok. split; [| split; [| split]].
  - intros tool m. unfold session_start, mbind, hook_bind, update. simpl.
    destruct (verbose config); simpl; discriminate.
  - intros tool m Hget.
    assert (Hempty : toolCallMetrics (session_end config now end_event st).2 = []).
    { destruct (session_end_run config now end_event st) as (lines & -> & _).
      reflexivity. }
    rewrite Hempty in Hget. discriminate.
  - intros tool m. rewrite before_tool_call_metrics.
    destruct (String.eqb_spec tool (toolName event)) as [-> | Hne].
    + rewrite map_get_set_eq. intros [= <-].
      assert (H0 : blocked (metrics_of (toolName event) st)
                   <= count (metrics_of (toolName event) st)).
      { unfold metrics_of.
        destruct (map_get (toolName event) (toolCallMetrics st)) as [m0 |] eqn:Hm0;
          simpl; [exact (Hok _ _ Hm0) | lia]. }
      destruct (blocks _); simpl; lia.
    + rewrite map_get_set_ne by exact Hne. apply Hok.
  - intros tool m.
    destruct (after_tool_call_keeps_closure config after_event st) as (_ & _ & ->).
    apply Hok.
Qed.

Lemma metrics_ok_initially : metrics_ok initialState.
Proof. intros tool m Hget. discriminate. Qed.

Lemma metrics_ok_is_kept_witness :
  metrics_ok (before_tool_call defaultConfig (rejecting (NonError (Some "boom")))
                bashEvent testContext initialState).2.
Proof.
  apply (metrics_ok_is_kept defaultConfig (rejecting (NonError (Some "boom"))) 0%Z
           startEvent endEvent bashEvent testContext writeCall initialState
           metrics_ok_initially).
Defined.

(** X15. [session_end] always returns, clears the session id, the start
    time and the metrics, and writes three lines plus one per tool when
    verbose, none otherwise. *)
Theorem session_end_clears_and_reports config now event st :
  exists lines : list (Level * string),
    session_end config now event st
    = (Returned tt,
       {| currentSessionId := None; sessionStartTime := None;
          toolCallMetrics := []; logged := (logged st ++ lines)%list |})
    /\ List.length lines
       = if verbose config then 3 + List.length (toolCallMetrics st) else 0.
Proof. apply session_end_run. Qed.

(** The lines the [catch] clause writes. *)
Lemma on_guard_error_logged config tool act metrics error st :
  logged (on_guard_error config tool act metrics error st).2
  = (logged st
     ++ match error with
        | ActionDeniedError message =>
            if verbose config
            then [(Warn, "[SecureClaw] BLOCKED: " +:+ show_action act +:+ " - " +:+ message)]
            else []
        | SidecarUnavailableError message =>
            [(Error, "[SecureClaw] Sidecar error (fail-closed): " +:+ message)]
        | OtherError message | NonError (Some message) =>
            if failClosed config
            then [(Error, "[SecureClaw] Unknown error (fail-closed): " +:+ message)]
            else [(Warn, "[SecureClaw] Unknown error (fail-open): " +:+ message)]
        | NonError None => []
        end)%list.
Proof.
  destruct error as [m | m | m | [m |]]; unfold on_guard_error.
  - unfold mbind, hook_bind, set_metrics, update, when.
    destruct (verbose config); [reflexivity |].
    cbn [logged snd]. unfold mret, hook_ret. cbn [logged snd].
    symmetry. apply app_nil_r.
  - reflexivity.
  - unfold mbind, hook_bind, errorMessageOf, mret, hook_ret.
    destruct (failClosed config); reflexivity.
  - unfold mbind, hook_bind, errorMessageOf, mret, hook_ret.
    destruct (failClosed config); reflexivity.
  - unfold mbind, hook_bind, errorMessageOf, raise. cbn [logged snd].
    symmetry. apply app_nil_r.
Qed.

(** X16. With [verbose = false], [before_tool_call] writes nothing to the
    log when the provider allows or denies by policy, exactly one line, at
    error level (warn level when failing open), when the sidecar is
    unavailable or another error with a message or string form is thrown,
    and nothing when the thrown value has no string form. *)
Theorem quiet_gate_logs_only_failures config guard event ctx st :
  verbose config = false ->
  logged (before_tool_call config guard event ctx st).2
  = (logged st
     ++ match guard (guardRequestFor config event ctx (currentSessionId st)) with
        | Resolved _ => []
        | Rejected (ActionDeniedError _) => []
        | Rejected (SidecarUnavailableError message) =>
            [(Error, "[SecureClaw] Sidecar error (fail-closed): " +:+ message)]
        | Rejected (OtherError message) | Rejected (NonError (Some message)) =>
            if failClosed config
            then [(Error, "[SecureClaw] Unknown error (fail-closed): " +:+ message)]
            else [(Warn, "[SecureClaw] Unknown error (fail-open): " +:+ message)]
        | Rejected (NonError None) => []
        end)%list.
Proof.
  intros Hquiet.
  destruct (before_tool_call_run config guard event ctx st)
    as (st1 & _ & _ & _ & Hlog & ->).
  rewrite Hquiet, !app_nil_r in Hlog.
  destruct (guard _) as [mandate | err].
  - cbn [snd]. rewrite Hlog. symmetry. apply app_nil_r.
  - rewrite on_guard_error_logged, Hlog, Hquiet.
    destruct err as [m | m | m | [m |]]; reflexivity.
Qed.

Lemma quiet_gate_witness :
  logged (before_tool_call quietConfig (rejecting (OtherError "Timeout"))
            readEvent testContext initialState).2
  = [(Warn, "[SecureClaw] Unknown error (fail-open): Timeout")].
Proof.
  apply (quiet_gate_logs_only_failures quietConfig (rejecting (OtherError "Timeout"))
           readEvent testContext initialState).
  reflexivity.
Defined.

(** X17. With [verbose = true], the pre-authorization line written for a
    sensitive resource shows "[REDACTED]" in its place. It is followed by
    one line per decision event the provider reports, which prints the
    resource of the event as reported, not redacted, and then by at most
    one line of the [catch] clause. *)
Theorem verbose_gate_redacts_sensitive_resource config guard event ctx st :
  verbose config = true ->
  isSensitiveResource (extractResource (toolName event) (params event)) = true ->
  exists rest : list (Level * string),
    logged (before_tool_call config guard event ctx st).2
    = (logged st
       ++ [(Info, "[SecureClaw] Pre-auth: "
                  +:+ show_action (extractAction (toolName event))
                  +:+ " on [REDACTED]")]
       ++ map (fun reported => (Info, decision_line reported))
            (reports guard (guardRequestFor config event ctx (currentSessionId st)))
       ++ rest)%list
    /\ List.length rest <= 1.
Proof.
  intros Hverbose Hsens.
  destruct (before_tool_call_run config guard event ctx st)
    as (st1 & _ & _ & _ & Hlog & ->).
  rewrite Hverbose in Hlog. unfold redactResource in Hlog. rewrite Hsens in Hlog.
  destruct (guard _) as [mandate | err].
  - exists []. cbn [snd]. split; [rewrite Hlog, app_nil_r; reflexivity | simpl; lia].
  - rewrite on_guard_error_logged, Hlog, <- !app_assoc.
    eexists. split; [reflexivity |].
    destruct err as [m | m | m | [m |]];
      try destruct (verbose config); try destruct (failClosed config);
      simpl; lia.
Qed.

Lemma verbose_gate_witness :
  exists rest : list (Level * string),
    logged (before_tool_call failOpenConfig reportingDeny
              readEvent testContext initialState).2
    = (logged initialState
       ++ [(Info, "[SecureClaw] Pre-auth: "
                  +:+ show_action (extractAction (toolName readEvent))
                  +:+ " on [REDACTED]")]
       ++ map (fun reported => (Info, decision_line reported))
            (reports reportingDeny
               (guardRequestFor failOpenConfig readEvent testContext
                  (currentSessionId initialState)))
       ++ rest)%list
    /\ List.length rest <= 1.
Proof.
  apply (verbose_gate_redacts_sensitive_resource failOpenConfig
           reportingDeny readEvent testContext initialState);
    vm_compute; reflexivity.
Defined.

(** The same run, line by line: the telemetry line shows the path that the
    pre-authorization line hides. *)
Example verbose_gate_log :
  logged (before_tool_call failOpenConfig reportingDeny
            readEvent testContext initialState).2
  = [ (Info, "[SecureClaw] Pre-auth: fs.read on [REDACTED]");
      (Info, "[SecureClaw] BLOCKED: fs.read on /home/user/.ssh/id_rsa (sensitive_resource_blocked)");
      (Warn, "[SecureClaw] BLOCKED: fs.read - sensitive_resource_blocked") ].
Proof. vm_compute. reflexivity. Qed.

(** X18. When [guardOrThrow] resolves, with a mandate id or with [null],
    [before_tool_call] returns [undefined], and the call is counted but
    not as blocked. *)
Theorem resolved_guard_lets_the_call_through config (guard : Guard) event ctx st mandate :
  guard (guardRequestFor config event ctx (currentSessionId st)) = Resolved mandate ->
  (before_tool_call config guard event ctx st).1 = Returned None
  /\ map_get (toolName event)
       (toolCallMetrics (before_tool_call config guard event ctx st).2)
     = Some (count_up (metrics_of (toolName event) st)).
Proof.
  intros Hres. split.
  - rewrite before_tool_call_outcome, Hres. reflexivity.
  - rewrite before_tool_call_metrics, before_tool_call_outcome, Hres.
    apply map_get_set_eq.
Qed.

Lemma resolved_guard_witness :
  (before_tool_call quietConfig (resolving None) readEvent testContext initialState).1
  = Returned None
  /\ map_get (toolName readEvent)
       (toolCallMetrics
          (before_tool_call quietConfig (resolving None) readEvent testContext
             initialState).2)
     = Some (count_up (metrics_of (toolName readEvent) initialState)).
Proof.
  apply (resolved_guard_lets_the_call_through quietConfig (resolving None)
           readEvent testContext initialState None).
  reflexivity.
Defined.

Lemma session_start_state config now event st :
  currentSessionId (session_start config now event st).2 = Some (start_sessionId event)
  /\ sessionStartTime (session_start config now event st).2 = Some now
  /\ toolCallMetrics (session_start config now event st).2 = [].
Proof.
  unfold session_start, mbind, hook_bind, update, when.
  destruct (verbose config); repeat split.
Qed.

(** X19. After [session_start] the provider is consulted with the session
    id of that event, whatever [ctx.sessionKey] is; after [session_end] it
    is consulted with [ctx.sessionKey]. In both cases the hook returns
    [undefined] when the provider resolves and ends as the [catch] clause
    ends when it rejects. *)
Theorem provider_sees_the_current_session
    config guard now now' start_event end_event event ctx st :
  let started := (session_start config now start_event st).2 in
  let ended := (session_end config now' end_event started).2 in
  session_id (context (guardRequestFor config event ctx (currentSessionId started)))
  = Some (start_sessionId start_event)
  /\ session_id (context (guardRequestFor config event ctx (currentSessionId ended)))
     = sessionKey ctx
  /\ (before_tool_call config guard event ctx started).1
     = match guard (guardRequestFor config event ctx (Some (start_sessionId start_event))) with
       | Resolved _ => Returned None
       | Rejected error => verdict config error
       end
  /\ (before_tool_call config guard event ctx ended).1
     = match guard (guardRequestFor config event ctx None) with
       | Resolved _ => Returned None
       | Rejected error => verdict config error
       end.
Proof.
  intros started ended.
  assert (Hs : currentSessionId started = Some (start_sessionId start_event))
    by apply session_start_state.
  assert (He : currentSessionId ended = None).
  { subst ended. destruct (session_end_run config now' end_event started) as (l & -> & _).
    reflexivity. }
  rewrite !before_tool_call_outcome, Hs, He. repeat split.
Qed.

Lemma after_tool_call_run config event st :
  after_tool_call config event st
  = if negb (enablePostVerification config) then (Returned tt, st)
    else
      let st1 :=
        if verbose config
        then add_lines
               [(Info, "[SecureClaw] Post-verify: "
                       +:+ show_action (extractAction (after_toolName event)) +:+ " on "
                       +:+ redactResource
                             (extractResource (after_toolName event) (after_params event))
                       +:+ " (" +:+ default "0" (durationMs event)
                       +:+ "ms, error: "
                       +:+ (if truthy (error event) then "yes" else "no") +:+ ")")] st
        else st in
      match extractAction (after_toolName event) with
      | ActionInherited _ =>
          (Threw (OtherError "action.startsWith is not a function"), st1)
      | ActionName name =>
          let st2 :=
            if Js.startsWith "browser." name && verbose config
            then add_lines
                   [(Info, "[SecureClaw] Browser verification: "
                           +:+ after_toolName event +:+ " (placeholder)")] st1
            else st1 in
          (Returned tt,
           if String.eqb name "fs.write" && negb (truthy (error event)) && verbose config
           then add_lines
                  [(Info, "[SecureClaw] File write verification: "
                          +:+ after_toolName event +:+ " (placeholder)")] st2
           else st2)
      end.
Proof.
  unfold after_tool_call.
  destruct (negb (enablePostVerification config)); [reflexivity |].
  lazy zeta.
  unfold mbind, hook_bind, when, action_startsWith, action_is,
    verifyBrowserState, verifyFileWrite, when, raise, mret, hook_ret.
  destruct (verbose config);
    destruct (extractAction (after_toolName event)) as [name | member];
    unfold log, update; lazy beta iota zeta; try reflexivity;
    destruct (Js.startsWith "browser." name);
    destruct (String.eqb name "fs.write"); destruct (truthy (error event));
    reflexivity.
Qed.

(** X21. [after_tool_call] either returns or throws the [TypeError] of
    [action.startsWith]; it returns exactly when post-verification is
    disabled or the tool name is not one inherited from
    [Object.prototype]. *)
Theorem after_tool_call_rejects_on_inherited_names config event st :
  ((after_tool_call config event st).1 = Returned tt
   \/ (after_tool_call config event st).1
      = Threw (OtherError "action.startsWith is not a function"))
  /\ ((after_tool_call config event st).1 = Returned tt
      <-> enablePostVerification config = false
          \/ ~ In (after_toolName event) object_prototype_members).
Proof.
  rewrite after_tool_call_run.
  destruct (enablePostVerification config); cbn [negb].
  - lazy zeta.
    destruct (extractAction (after_toolName event)) as [name | member] eqn:Hact.
    + split; [left; reflexivity |]. split; [| reflexivity].
      intros _. right. intros Hin.
      assert (Hex : existsb (String.eqb (after_toolName event))
                      object_prototype_members = true).
      { apply existsb_exists. exists (after_toolName event).
        split; [exact Hin | apply String.eqb_refl]. }
      unfold extractAction in Hact.
      destruct (actionMap !! after_toolName event) eqn:Hlook.
      * unfold object_prototype_members in Hin. simpl in Hin.
        repeat (destruct Hin as [Hin | Hin];
                [rewrite <- Hin in Hlook; vm_compute in Hlook; discriminate |]).
        destruct Hin.
      * rewrite Hex in Hact. discriminate.
    + split; [right; reflexivity |]. split; [discriminate |].
      intros [Hoff | Hnot]; [discriminate |]. exfalso. apply Hnot.
      unfold extractAction in Hact.
      destruct (actionMap !! after_toolName event); [discriminate |].
      destruct (existsb _ _) eqn:Hex; [| discriminate].
      apply existsb_exists in Hex as (m & Hin & Heq).
      apply String.eqb_eq in Heq. subst m. exact Hin.
  - split; [left; reflexivity |]. split; [intros _; left; reflexivity | reflexivity].
Qed.

(** X22. With [verbose = false], [after_tool_call] leaves the whole state,
    log included, as it was. *)
Theorem quiet_after_tool_call_changes_nothing config event st :
  verbose config = false ->
  (after_tool_call config event st).2 = st.
Proof.
  intros Hquiet. rewrite after_tool_call_run, Hquiet.
  destruct (negb (enablePostVerification config)); [reflexivity |].
  lazy zeta. destruct (extractAction _); [| reflexivity].
  rewrite !andb_false_r. reflexivity.
Qed.

Lemma quiet_after_tool_call_witness :
  (after_tool_call quietConfig toStringCall initialState).2 = initialState.
Proof.
  apply (quiet_after_tool_call_changes_nothing quietConfig toStringCall initialState).
  reflexivity.
Defined.

(** X28. Fail-closed for every rejection that can be reported: with
    [failClosed = true], when [guardOrThrow] rejects with an [Error] of any
    class, or with a value that has a string form, the hook returns an
    object with [block = true]. *)
Theorem printable_rejections_fail_closed
    (config : SecureClawConfig) (guard : Guard) (event : BeforeToolCallEvent)
    (ctx : ToolContext) (st : PluginState) (error : Thrown) :
  failClosed config = true ->
  guard (guardRequestFor config event ctx (currentSessionId st)) = Rejected error ->
  error <> NonError None ->
  exists res : BlockResult,
    (before_tool_call config guard event ctx st).1 = Returned (Some res)
    /\ block res = true.
Proof.
  intros Hclosed Hrej Hprintable.
  rewrite before_tool_call_outcome, Hrej.
  destruct error as [m | m | m | [m |]]; unfold verdict; rewrite ?Hclosed;
    try (eexists; split; reflexivity).
  contradiction.
Qed.

Lemma printable_rejections_witness :
  exists res : BlockResult,
    (before_tool_call defaultConfig (rejecting (NonError (Some "boom")))
       bashEvent testContext initialState).1 = Returned (Some res)
    /\ block res = true.
Proof.
  apply (printable_rejections_fail_closed defaultConfig
           (rejecting (NonError (Some "boom"))) bashEvent testContext initialState
           (NonError (Some "boom"))); [reflexivity | reflexivity | discriminate].
Defined.

(** X29. A run of [before_tool_call] ends in one of three ways: it returns
    [undefined]; it returns an object with [block = true] and a non-empty
    [blockReason] that starts with "[SecureClaw]"; or, when the provider
    rejects with a value that has no string form, it throws the
    [TypeError] of [String(error)]. It never returns [block = false]. *)
Theorem before_tool_call_ends_three_ways
    (config : SecureClawConfig) (guard : Guard) (event : BeforeToolCallEvent)
    (ctx : ToolContext) (st : PluginState) :
  (before_tool_call config guard event ctx st).1 = Returned None
  \/ (exists res : BlockResult,
        (before_tool_call config guard event ctx st).1 = Returned (Some res)
        /\ block res = true
        /\ blockReason res <> ""
        /\ Js.startsWith "[SecureClaw]" (blockReason res) = true)
  \/ ((before_tool_call config guard event ctx st).1 = Threw noStringForm
      /\ guard (guardRequestFor config event ctx (currentSessionId st))
         = Rejected (NonError None)).
Proof.
  rewrite before_tool_call_outcome.
  destruct (guard _) as [mandate | error]; [left; reflexivity |].
  destruct error as [m | m | m | [m |]]; unfold verdict.
  - right. left. eexists. split; [reflexivity |]. repeat split. discriminate.
  - right. left. eexists. split; [reflexivity |]. repeat split. discriminate.
  - destruct (failClosed config); [right; left | left; reflexivity].
    eexists. split; [reflexivity |]. repeat split. discriminate.
  - destruct (failClosed config); [right; left | left; reflexivity].
    eexists. split; [reflexivity |]. repeat split. discriminate.
  - right. right. split; reflexivity.
Qed.

(** * Further properties of the configuration *)

Lemma env_is_true (env : gmap string string) (name value : string) :
  env_is env name value = true <-> env !! name = Some value.
Proof.
  unfold env_is. destruct (env !! name) as [v |].
  - rewrite String.eqb_eq. split; congruence.
  - split; discriminate.
Qed.

Lemma env_is_false (env : gmap string string) (name value : string) :
  env_is env name value = false <-> env !! name <> Some value.
Proof.
  rewrite <- env_is_true. destruct (env_is env name value); split; congruence.
Qed.

(** X23. The plugin configuration fails open exactly when the options say
    [failClosed: false], or leave it unset while SECURECLAW_FAIL_OPEN is
    the string "true"; in every other case it fails closed. *)
Theorem plugin_fails_open_only_on_request
    (env : gmap string string) (options : PartialConfig) :
  failClosed (pluginConfig env options) = false
  <-> p_failClosed options = Some false
      \/ (p_failClosed options = None /\ env !! "SECURECLAW_FAIL_OPEN" = Some "true").
Proof.
  unfold pluginConfig, mergeConfig, loadConfigFromEnv. cbn [failClosed p_failClosed from_option id].
  destruct (p_failClosed options) as [[] |]; cbn [from_option id].
  - split; [discriminate | intros [H | [H _]]; discriminate].
  - split; [intros _; left; reflexivity | reflexivity].
  - rewrite negb_false_iff, env_is_true.
    split; [intros H; right; split; [reflexivity | exact H] |].
    intros [H | [_ H]]; [discriminate | exact H].
Qed.

(** X24. Without options, an environment that sets none of the SecureClaw
    variables (or sets the three switches to other values than the ones
    tested for) gives [defaultConfig]. *)
Theorem unset_environment_gives_defaults (env : gmap string string) :
  env !! "SECURECLAW_PRINCIPAL" = None ->
  env !! "SECURECLAW_POLICY" = None ->
  env !! "PREDICATE_SIDECAR_URL" = None ->
  env !! "SECURECLAW_TENANT_ID" = None ->
  env !! "SECURECLAW_USER_ID" = None ->
  env !! "SECURECLAW_FAIL_OPEN" <> Some "true" ->
  env !! "SECURECLAW_VERIFY" <> Some "false" ->
  env !! "SECURECLAW_VERBOSE" <> Some "true" ->
  pluginConfig env noOptions = defaultConfig.
Proof.
  intros Hp Hpol Hurl Hten Husr Hopen Hver Hverb.
  apply env_is_false in Hopen, Hver, Hverb.
  unfold pluginConfig, mergeConfig, loadConfigFromEnv, noOptions, defaultConfig.
  cbn -[env_is]. rewrite Hp, Hpol, Hurl, Hten, Husr, Hopen, Hver, Hverb.
  reflexivity.
Qed.

Lemma unset_environment_witness : pluginConfig unrelatedEnv noOptions = defaultConfig.
Proof.
  apply (unset_environment_gives_defaults unrelatedEnv);
    vm_compute; first [reflexivity | discriminate].
Defined.

(** X25. Merging no overrides changes nothing, and merging the same
    overrides twice is the same as merging them once. *)
Theorem mergeConfig_overrides_once (base : SecureClawConfig) (overrides : PartialConfig) :
  mergeConfig base noOptions = base
  /\ mergeConfig (mergeConfig base overrides) overrides = mergeConfig base overrides.
Proof.
  split.
  - destruct base. reflexivity.
  - unfold mergeConfig. cbn.
    destruct overrides as [a b c d e f g h i].
    destruct a, b, c, d, e, f, g, h, i; reflexivity.
Qed.


(** X27. [autoRegisterSecureClaw] returns [null] exactly when
    SECURECLAW_DISABLED is the string "true"; otherwise it returns the
    plugin of [getSecureClawPlugin], which fails open exactly when
    SECURECLAW_FAIL_OPEN is the string "true". *)
Theorem autoRegister_returns_a_fail_closed_plugin (env : gmap string string) :
  ((autoRegisterSecureClaw env).1 = None
   <-> env !! "SECURECLAW_DISABLED" = Some "true")
  /\ (forall plugin : PluginDefinition,
        (autoRegisterSecureClaw env).1 = Some plugin ->
        plugin = getSecureClawPlugin env
        /\ (failClosed (plugin_config plugin) = false
            <-> env !! "SECURECLAW_FAIL_OPEN" = Some "true")).
Proof.
  unfold autoRegisterSecureClaw, isSecureClawEnabled. rewrite negb_involutive.
  destruct (env_is env "SECURECLAW_DISABLED" "true") eqn:Hdis.
  - apply env_is_true in Hdis. split; [split; [intros _; exact Hdis | reflexivity] |].
    intros plugin H. discriminate.
  - apply env_is_false in Hdis. split; [split; [discriminate | intros H; contradiction] |].
    intros plugin [= <-]. split; [reflexivity |].
    cbn [plugin_config createSecureClawPlugin].
    unfold pluginConfig, mergeConfig, loadConfigFromEnv, noOptions.
    cbn [failClosed p_failClosed from_option id].
    rewrite negb_false_iff. apply env_is_true.
Qed.
